(** * OCPP-to-TWC bridge: state reconciliation engine

    A shallow embedding of [ocpp2twc/twc.py] (the Vitals snapshot and the
    EVSE state machine of [TWCSimulator]) and of [ocpp2twc/server.py] (the
    OCPP handlers of [ChargePoint]: session ledger and telemetry
    translation), followed by the properties established about them.

    Conventions of the embedding.
    - Python [float] is IEEE-754 binary64, which is Rocq's primitive
      [float]; [-], [+], [/] and [>] are the primitive operations.  The only
      [int] that ever reaches a float-typed field is the literal default
      [0]; it is represented by the float zero (in Python [0 == 0.0], and
      arithmetic with a float coerces it to [0.0]).
    - Python [int] is [Z].
    - A [datetime] is the instant it denotes, in microseconds since the
      epoch ([Time]).  Every read of [datetime.now(timezone.utc)] is an
      explicit [now] argument of the operation that performs it.
    - A [dict] with string keys is an insertion-ordered association list
      ([PyDict]), since [sum(powers.values())] follows insertion order.
    - A method that mutates [self] is a function from the old object to the
      new one; a method whose return value is used returns a pair. *)

From Stdlib Require Import ZArith Bool List String Floats Lia.
Import ListNotations.
Open Scope string_scope.
Open Scope Z_scope.

(** ** Python run-time notions shared by both files *)

(** Instants, in microseconds since the epoch. *)
Definition Time := Z.

(** [int(delta.total_seconds())]: whole seconds of a difference of
    instants, truncated toward zero.  The quotient is taken exactly; it is
    what the code computes, through a binary64 quotient, whenever the
    difference is below 2^34 seconds (17179869184 s, some 544 years; this
    is [whole_seconds_exact] below).  From there on the binary64 quotient of
    [x.999999] can be the next whole second. *)
Definition whole_seconds (delta : Z) : Z := Z.quot delta 1000000.

(** An integer as an unrounded binary float. *)
Definition SF_of_Z (z : Z) : spec_float :=
  match z with
  | Z0 => S754_zero false
  | Zpos p => S754_finite false p 0
  | Zneg p => S754_finite true p 0
  end.

(** [a / b] on integers: the quotient correctly rounded to binary64
    (round to nearest, ties to even). *)
Definition py_true_div (a b : Z) : float :=
  SF2Prim (SFdiv prec emax (SF_of_Z a) (SF_of_Z b)).

(** [dt.timestamp()] of a timezone-aware datetime:
    [(dt - epoch).total_seconds()], the microseconds divided by [10**6]. *)
Definition py_timestamp (t : Time) : float := py_true_div t 1000000.

(** [int(x)] on a finite float: truncation toward zero (on infinities and
    NaN, which no difference of timestamps is, Python raises). *)
Definition py_int (x : float) : Z :=
  match Prim2SF x with
  | S754_finite sign m e =>
      let n := if 0 <=? e then Z.shiftl (Zpos m) e else Z.shiftr (Zpos m) (- e) in
      if sign then - n else n
  | _ => 0
  end.

(** Outcome of [datetime.fromisoformat] on a string: a [ValueError], a
    timezone-aware datetime, or a naive one (no offset; the instant stored is
    its local-time reading, as [.timestamp()] takes it). *)
Inductive IsoParse : Type :=
| IsoInvalid
| IsoAware (t : Time)
| IsoNaive (t : Time).

(** A call either returns or raises; either way the mutations performed so
    far on the object are kept. *)
Inductive result (A : Type) : Type :=
| Returned (a : A)
| Raised (a : A).
Arguments Returned {A} a.
Arguments Raised {A} a.

Definition state_of {A : Type} (r : result A) : A :=
  match r with Returned a => a | Raised a => a end.

Definition has_raised {A : Type} (r : result A) : bool :=
  match r with Returned _ => false | Raised _ => true end.

(** [c > 0] on floats (false on NaN). *)
Definition gt (x y : float) : bool := PrimFloat.ltb y x.

(** [sum(xs)]: accumulation from [0], left to right (CPython from 3.12 on
    adds a compensation term for floats, which can only change how the
    total is rounded, not which terms enter it). *)
Definition py_sum (xs : list float) : float :=
  fold_left PrimFloat.add xs 0%float.

(** [max(0, x)]: the first argument is kept unless [x > 0]. *)
Definition py_max0 (x : float) : float :=
  if gt x 0%float then x else 0%float.

(** [len(xs)] used as a float operand. *)
Definition float_len {A : Type} (xs : list A) : float :=
  PrimFloat.of_uint63 (Uint63.of_Z (Z.of_nat (List.length xs))).

(** Insertion-ordered dictionaries with string keys and float values. *)
Module PyDict.

Definition t := list (string * float).

(** [d.get(k, default)] *)
Fixpoint get (d : t) (k : string) (default : float) : float :=
  match d with
  | [] => default
  | (k', v) :: d' => if String.eqb k' k then v else get d' k default
  end.

(** [d[k] = v]: replaces the value in place, or appends a new key. *)
Fixpoint set (d : t) (k : string) (v : float) : t :=
  match d with
  | [] => [(k, v)]
  | (k', v') :: d' =>
      if String.eqb k' k then (k', v) :: d' else (k', v') :: set d' k v
  end.

(** [d.values()] *)
Definition values (d : t) : list float := map snd d.

End PyDict.

(** ** twc.py *)
Module Twc.

(** [class Vitals] *)
Record Vitals : Type := Build_Vitals {
  contactor_closed : bool;
  vehicle_connected : bool;
  session_s : Z;
  grid_v : float;
  grid_hz : float;
  vehicle_current_a : float;
  currentA_a : float;
  currentB_a : float;
  currentC_a : float;
  currentN_a : float;
  voltageA_v : float;
  voltageB_v : float;
  voltageC_v : float;
  relay_coil_v : float;
  pcba_temp_c : float;
  handle_temp_c : float;
  mcu_temp_c : float;
  uptime_s : Z;
  input_thermopile_uv : float;
  prox_v : float;
  pilot_high_v : float;
  pilot_low_v : float;
  session_energy_wh : float;
  total_energy_wh : float;
  config_status : Z;
  evse_state : Z;
  current_alerts : list string
}.

(** [Vitals()]: every field at its declared default. *)
Definition Vitals_default : Vitals :=
  Build_Vitals false false 0 0 0 0 0 0 0 0 0 0 0 0 0 0 0 0 0 0 0 0 0 0 0 0 [].

(** Field assignments [self.vitals.<field> = x]. *)
Definition with_contactor_closed (x : bool) (v : Vitals) : Vitals :=
  Build_Vitals x (vehicle_connected v) (session_s v) (grid_v v) (grid_hz v)
    (vehicle_current_a v) (currentA_a v) (currentB_a v) (currentC_a v)
    (currentN_a v) (voltageA_v v) (voltageB_v v) (voltageC_v v)
    (relay_coil_v v) (pcba_temp_c v) (handle_temp_c v) (mcu_temp_c v)
    (uptime_s v) (input_thermopile_uv v) (prox_v v) (pilot_high_v v)
    (pilot_low_v v) (session_energy_wh v) (total_energy_wh v) (config_status
    v) (evse_state v) (current_alerts v).

Definition with_vehicle_connected (x : bool) (v : Vitals) : Vitals :=
  Build_Vitals (contactor_closed v) x (session_s v) (grid_v v) (grid_hz v)
    (vehicle_current_a v) (currentA_a v) (currentB_a v) (currentC_a v)
    (currentN_a v) (voltageA_v v) (voltageB_v v) (voltageC_v v)
    (relay_coil_v v) (pcba_temp_c v) (handle_temp_c v) (mcu_temp_c v)
    (uptime_s v) (input_thermopile_uv v) (prox_v v) (pilot_high_v v)
    (pilot_low_v v) (session_energy_wh v) (total_energy_wh v) (config_status
    v) (evse_state v) (current_alerts v).

Definition with_session_s (x : Z) (v : Vitals) : Vitals :=
  Build_Vitals (contactor_closed v) (vehicle_connected v) x (grid_v v)
    (grid_hz v) (vehicle_current_a v) (currentA_a v) (currentB_a v)
    (currentC_a v) (currentN_a v) (voltageA_v v) (voltageB_v v) (voltageC_v
    v) (relay_coil_v v) (pcba_temp_c v) (handle_temp_c v) (mcu_temp_c v)
    (uptime_s v) (input_thermopile_uv v) (prox_v v) (pilot_high_v v)
    (pilot_low_v v) (session_energy_wh v) (total_energy_wh v) (config_status
    v) (evse_state v) (current_alerts v).

Definition with_grid_v (x : float) (v : Vitals) : Vitals :=
  Build_Vitals (contactor_closed v) (vehicle_connected v) (session_s v) x
    (grid_hz v) (vehicle_current_a v) (currentA_a v) (currentB_a v)
    (currentC_a v) (currentN_a v) (voltageA_v v) (voltageB_v v) (voltageC_v
    v) (relay_coil_v v) (pcba_temp_c v) (handle_temp_c v) (mcu_temp_c v)
    (uptime_s v) (input_thermopile_uv v) (prox_v v) (pilot_high_v v)
    (pilot_low_v v) (session_energy_wh v) (total_energy_wh v) (config_status
    v) (evse_state v) (current_alerts v).

Definition with_grid_hz (x : float) (v : Vitals) : Vitals :=
  Build_Vitals (contactor_closed v) (vehicle_connected v) (session_s v)
    (grid_v v) x (vehicle_current_a v) (currentA_a v) (currentB_a v)
    (currentC_a v) (currentN_a v) (voltageA_v v) (voltageB_v v) (voltageC_v
    v) (relay_coil_v v) (pcba_temp_c v) (handle_temp_c v) (mcu_temp_c v)
    (uptime_s v) (input_thermopile_uv v) (prox_v v) (pilot_high_v v)
    (pilot_low_v v) (session_energy_wh v) (total_energy_wh v) (config_status
    v) (evse_state v) (current_alerts v).

Definition with_vehicle_current_a (x : float) (v : Vitals) : Vitals :=
  Build_Vitals (contactor_closed v) (vehicle_connected v) (session_s v)
    (grid_v v) (grid_hz v) x (currentA_a v) (currentB_a v) (currentC_a v)
    (currentN_a v) (voltageA_v v) (voltageB_v v) (voltageC_v v)
    (relay_coil_v v) (pcba_temp_c v) (handle_temp_c v) (mcu_temp_c v)
    (uptime_s v) (input_thermopile_uv v) (prox_v v) (pilot_high_v v)
    (pilot_low_v v) (session_energy_wh v) (total_energy_wh v) (config_status
    v) (evse_state v) (current_alerts v).

Definition with_currentA_a (x : float) (v : Vitals) : Vitals :=
  Build_Vitals (contactor_closed v) (vehicle_connected v) (session_s v)
    (grid_v v) (grid_hz v) (vehicle_current_a v) x (currentB_a v)
    (currentC_a v) (currentN_a v) (voltageA_v v) (voltageB_v v) (voltageC_v
    v) (relay_coil_v v) (pcba_temp_c v) (handle_temp_c v) (mcu_temp_c v)
    (uptime_s v) (input_thermopile_uv v) (prox_v v) (pilot_high_v v)
    (pilot_low_v v) (session_energy_wh v) (total_energy_wh v) (config_status
    v) (evse_state v) (current_alerts v).

Definition with_currentB_a (x : float) (v : Vitals) : Vitals :=
  Build_Vitals (contactor_closed v) (vehicle_connected v) (session_s v)
    (grid_v v) (grid_hz v) (vehicle_current_a v) (currentA_a v) x
    (currentC_a v) (currentN_a v) (voltageA_v v) (voltageB_v v) (voltageC_v
    v) (relay_coil_v v) (pcba_temp_c v) (handle_temp_c v) (mcu_temp_c v)
    (uptime_s v) (input_thermopile_uv v) (prox_v v) (pilot_high_v v)
    (pilot_low_v v) (session_energy_wh v) (total_energy_wh v) (config_status
    v) (evse_state v) (current_alerts v).

Definition with_currentC_a (x : float) (v : Vitals) : Vitals :=
  Build_Vitals (contactor_closed v) (vehicle_connected v) (session_s v)
    (grid_v v) (grid_hz v) (vehicle_current_a v) (currentA_a v) (currentB_a
    v) x (currentN_a v) (voltageA_v v) (voltageB_v v) (voltageC_v v)
    (relay_coil_v v) (pcba_temp_c v) (handle_temp_c v) (mcu_temp_c v)
    (uptime_s v) (input_thermopile_uv v) (prox_v v) (pilot_high_v v)
    (pilot_low_v v) (session_energy_wh v) (total_energy_wh v) (config_status
    v) (evse_state v) (current_alerts v).

Definition with_currentN_a (x : float) (v : Vitals) : Vitals :=
  Build_Vitals (contactor_closed v) (vehicle_connected v) (session_s v)
    (grid_v v) (grid_hz v) (vehicle_current_a v) (currentA_a v) (currentB_a
    v) (currentC_a v) x (voltageA_v v) (voltageB_v v) (voltageC_v v)
    (relay_coil_v v) (pcba_temp_c v) (handle_temp_c v) (mcu_temp_c v)
    (uptime_s v) (input_thermopile_uv v) (prox_v v) (pilot_high_v v)
    (pilot_low_v v) (session_energy_wh v) (total_energy_wh v) (config_status
    v) (evse_state v) (current_alerts v).

Definition with_voltageA_v (x : float) (v : Vitals) : Vitals :=
  Build_Vitals (contactor_closed v) (vehicle_connected v) (session_s v)
    (grid_v v) (grid_hz v) (vehicle_current_a v) (currentA_a v) (currentB_a
    v) (currentC_a v) (currentN_a v) x (voltageB_v v) (voltageC_v v)
    (relay_coil_v v) (pcba_temp_c v) (handle_temp_c v) (mcu_temp_c v)
    (uptime_s v) (input_thermopile_uv v) (prox_v v) (pilot_high_v v)
    (pilot_low_v v) (session_energy_wh v) (total_energy_wh v) (config_status
    v) (evse_state v) (current_alerts v).

Definition with_voltageB_v (x : float) (v : Vitals) : Vitals :=
  Build_Vitals (contactor_closed v) (vehicle_connected v) (session_s v)
    (grid_v v) (grid_hz v) (vehicle_current_a v) (currentA_a v) (currentB_a
    v) (currentC_a v) (currentN_a v) (voltageA_v v) x (voltageC_v v)
    (relay_coil_v v) (pcba_temp_c v) (handle_temp_c v) (mcu_temp_c v)
    (uptime_s v) (input_thermopile_uv v) (prox_v v) (pilot_high_v v)
    (pilot_low_v v) (session_energy_wh v) (total_energy_wh v) (config_status
    v) (evse_state v) (current_alerts v).

Definition with_voltageC_v (x : float) (v : Vitals) : Vitals :=
  Build_Vitals (contactor_closed v) (vehicle_connected v) (session_s v)
    (grid_v v) (grid_hz v) (vehicle_current_a v) (currentA_a v) (currentB_a
    v) (currentC_a v) (currentN_a v) (voltageA_v v) (voltageB_v v) x
    (relay_coil_v v) (pcba_temp_c v) (handle_temp_c v) (mcu_temp_c v)
    (uptime_s v) (input_thermopile_uv v) (prox_v v) (pilot_high_v v)
    (pilot_low_v v) (session_energy_wh v) (total_energy_wh v) (config_status
    v) (evse_state v) (current_alerts v).

Definition with_relay_coil_v (x : float) (v : Vitals) : Vitals :=
  Build_Vitals (contactor_closed v) (vehicle_connected v) (session_s v)
    (grid_v v) (grid_hz v) (vehicle_current_a v) (currentA_a v) (currentB_a
    v) (currentC_a v) (currentN_a v) (voltageA_v v) (voltageB_v v)
    (voltageC_v v) x (pcba_temp_c v) (handle_temp_c v) (mcu_temp_c v)
    (uptime_s v) (input_thermopile_uv v) (prox_v v) (pilot_high_v v)
    (pilot_low_v v) (session_energy_wh v) (total_energy_wh v) (config_status
    v) (evse_state v) (current_alerts v).

Definition with_pcba_temp_c (x : float) (v : Vitals) : Vitals :=
  Build_Vitals (contactor_closed v) (vehicle_connected v) (session_s v)
    (grid_v v) (grid_hz v) (vehicle_current_a v) (currentA_a v) (currentB_a
    v) (currentC_a v) (currentN_a v) (voltageA_v v) (voltageB_v v)
    (voltageC_v v) (relay_coil_v v) x (handle_temp_c v) (mcu_temp_c v)
    (uptime_s v) (input_thermopile_uv v) (prox_v v) (pilot_high_v v)
    (pilot_low_v v) (session_energy_wh v) (total_energy_wh v) (config_status
    v) (evse_state v) (current_alerts v).

Definition with_handle_temp_c (x : float) (v : Vitals) : Vitals :=
  Build_Vitals (contactor_closed v) (vehicle_connected v) (session_s v)
    (grid_v v) (grid_hz v) (vehicle_current_a v) (currentA_a v) (currentB_a
    v) (currentC_a v) (currentN_a v) (voltageA_v v) (voltageB_v v)
    (voltageC_v v) (relay_coil_v v) (pcba_temp_c v) x (mcu_temp_c v)
    (uptime_s v) (input_thermopile_uv v) (prox_v v) (pilot_high_v v)
    (pilot_low_v v) (session_energy_wh v) (total_energy_wh v) (config_status
    v) (evse_state v) (current_alerts v).

Definition with_mcu_temp_c (x : float) (v : Vitals) : Vitals :=
  Build_Vitals (contactor_closed v) (vehicle_connected v) (session_s v)
    (grid_v v) (grid_hz v) (vehicle_current_a v) (currentA_a v) (currentB_a
    v) (currentC_a v) (currentN_a v) (voltageA_v v) (voltageB_v v)
    (voltageC_v v) (relay_coil_v v) (pcba_temp_c v) (handle_temp_c v) x
    (uptime_s v) (input_thermopile_uv v) (prox_v v) (pilot_high_v v)
    (pilot_low_v v) (session_energy_wh v) (total_energy_wh v) (config_status
    v) (evse_state v) (current_alerts v).

Definition with_uptime_s (x : Z) (v : Vitals) : Vitals :=
  Build_Vitals (contactor_closed v) (vehicle_connected v) (session_s v)
    (grid_v v) (grid_hz v) (vehicle_current_a v) (currentA_a v) (currentB_a
    v) (currentC_a v) (currentN_a v) (voltageA_v v) (voltageB_v v)
    (voltageC_v v) (relay_coil_v v) (pcba_temp_c v) (handle_temp_c v)
    (mcu_temp_c v) x (input_thermopile_uv v) (prox_v v) (pilot_high_v v)
    (pilot_low_v v) (session_energy_wh v) (total_energy_wh v) (config_status
    v) (evse_state v) (current_alerts v).

Definition with_pilot_high_v (x : float) (v : Vitals) : Vitals :=
  Build_Vitals (contactor_closed v) (vehicle_connected v) (session_s v)
    (grid_v v) (grid_hz v) (vehicle_current_a v) (currentA_a v) (currentB_a
    v) (currentC_a v) (currentN_a v) (voltageA_v v) (voltageB_v v)
    (voltageC_v v) (relay_coil_v v) (pcba_temp_c v) (handle_temp_c v)
    (mcu_temp_c v) (uptime_s v) (input_thermopile_uv v) (prox_v v) x
    (pilot_low_v v) (session_energy_wh v) (total_energy_wh v) (config_status
    v) (evse_state v) (current_alerts v).

Definition with_pilot_low_v (x : float) (v : Vitals) : Vitals :=
  Build_Vitals (contactor_closed v) (vehicle_connected v) (session_s v)
    (grid_v v) (grid_hz v) (vehicle_current_a v) (currentA_a v) (currentB_a
    v) (currentC_a v) (currentN_a v) (voltageA_v v) (voltageB_v v)
    (voltageC_v v) (relay_coil_v v) (pcba_temp_c v) (handle_temp_c v)
    (mcu_temp_c v) (uptime_s v) (input_thermopile_uv v) (prox_v v)
    (pilot_high_v v) x (session_energy_wh v) (total_energy_wh v)
    (config_status v) (evse_state v) (current_alerts v).

Definition with_session_energy_wh (x : float) (v : Vitals) : Vitals :=
  Build_Vitals (contactor_closed v) (vehicle_connected v) (session_s v)
    (grid_v v) (grid_hz v) (vehicle_current_a v) (currentA_a v) (currentB_a
    v) (currentC_a v) (currentN_a v) (voltageA_v v) (voltageB_v v)
    (voltageC_v v) (relay_coil_v v) (pcba_temp_c v) (handle_temp_c v)
    (mcu_temp_c v) (uptime_s v) (input_thermopile_uv v) (prox_v v)
    (pilot_high_v v) (pilot_low_v v) x (total_energy_wh v) (config_status v)
    (evse_state v) (current_alerts v).

Definition with_total_energy_wh (x : float) (v : Vitals) : Vitals :=
  Build_Vitals (contactor_closed v) (vehicle_connected v) (session_s v)
    (grid_v v) (grid_hz v) (vehicle_current_a v) (currentA_a v) (currentB_a
    v) (currentC_a v) (currentN_a v) (voltageA_v v) (voltageB_v v)
    (voltageC_v v) (relay_coil_v v) (pcba_temp_c v) (handle_temp_c v)
    (mcu_temp_c v) (uptime_s v) (input_thermopile_uv v) (prox_v v)
    (pilot_high_v v) (pilot_low_v v) (session_energy_wh v) x (config_status
    v) (evse_state v) (current_alerts v).

Definition with_evse_state (x : Z) (v : Vitals) : Vitals :=
  Build_Vitals (contactor_closed v) (vehicle_connected v) (session_s v)
    (grid_v v) (grid_hz v) (vehicle_current_a v) (currentA_a v) (currentB_a
    v) (currentC_a v) (currentN_a v) (voltageA_v v) (voltageB_v v)
    (voltageC_v v) (relay_coil_v v) (pcba_temp_c v) (handle_temp_c v)
    (mcu_temp_c v) (uptime_s v) (input_thermopile_uv v) (prox_v v)
    (pilot_high_v v) (pilot_low_v v) (session_energy_wh v) (total_energy_wh
    v) (config_status v) x (current_alerts v).

(** [class TWCSimulator]: the attributes set by [__init__]. *)
Record TWCSimulator : Type := Build_TWCSimulator {
  vitals : Vitals;
  max_power : Z;
  start_time : Time;
  charging_start_time : option Time;
  ocpp_connected : bool;
  last_seen : Time
}.

Definition with_vitals (v : Vitals) (s : TWCSimulator) : TWCSimulator :=
  Build_TWCSimulator v (max_power s) (start_time s) (charging_start_time s)
    (ocpp_connected s) (last_seen s).

Definition with_charging_start_time (c : option Time) (s : TWCSimulator)
  : TWCSimulator :=
  Build_TWCSimulator (vitals s) (max_power s) (start_time s) c
    (ocpp_connected s) (last_seen s).

Definition with_ocpp_connected (b : bool) (s : TWCSimulator) : TWCSimulator :=
  Build_TWCSimulator (vitals s) (max_power s) (start_time s)
    (charging_start_time s) b (last_seen s).

Definition with_last_seen (t : Time) (s : TWCSimulator) : TWCSimulator :=
  Build_TWCSimulator (vitals s) (max_power s) (start_time s)
    (charging_start_time s) (ocpp_connected s) t.

(** [self.vitals.<field> = x] on the simulator. *)
Definition on_vitals (f : Vitals -> Vitals) (s : TWCSimulator) : TWCSimulator :=
  with_vitals (f (vitals s)) s.

(** [TWCSimulator.__init__], run at instant [now]. *)
Definition init (now : Time) : TWCSimulator :=
  Build_TWCSimulator Vitals_default 11000 now None false now.

(** [if not self.charging_start_time: self.charging_start_time = now]
    (a datetime is always truthy). *)
Definition start_timer_if_unset (now : Time) (s : TWCSimulator) : TWCSimulator :=
  match charging_start_time s with
  | None => with_charging_start_time (Some now) s
  | Some _ => s
  end.

(** [TWCSimulator.charging] *)
Definition charging (s : TWCSimulator) : bool :=
  contactor_closed (vitals s) && (evse_state (vitals s) =? 3).

(** [TWCSimulator.set_enabled]: the new object and the returned flag. *)
Definition set_enabled (enabled : bool) (now : Time) (s : TWCSimulator)
  : TWCSimulator * bool :=
  if enabled then
    if evse_state (vitals s) =? 4 then (s, false)
    else if vehicle_connected (vitals s) then
      let s := on_vitals (with_evse_state 3) s in
      let s := on_vitals (with_contactor_closed true) s in
      (start_timer_if_unset now s, true)
    else
      (on_vitals (with_evse_state 2) s, true)
  else
    let s := on_vitals (with_evse_state 1) s in
    let s := on_vitals (with_contactor_closed false) s in
    (with_charging_start_time None s, true).

(** [TWCSimulator.set_vehicle_connected] (it always returns [True]). *)
Definition set_vehicle_connected (connected : bool) (now : Time)
    (s : TWCSimulator) : TWCSimulator :=
  let s := on_vitals (with_vehicle_connected connected) s in
  if negb connected then
    let s := on_vitals (with_contactor_closed false) s in
    let s := with_charging_start_time None s in
    if negb (evse_state (vitals s) =? 1) && negb (evse_state (vitals s) =? 4)
    then on_vitals (with_evse_state 2) s
    else s
  else if evse_state (vitals s) =? 2 then
    let s := on_vitals (with_evse_state 3) s in
    let s := on_vitals (with_contactor_closed true) s in
    start_timer_if_unset now s
  else s.

(** [TWCSimulator.set_error] *)
Definition set_error (has_error : bool) (now : Time) (s : TWCSimulator)
  : TWCSimulator :=
  if has_error then
    let s := on_vitals (with_evse_state 4) s in
    let s := on_vitals (with_contactor_closed false) s in
    with_charging_start_time None s
  else
    let s := on_vitals (with_evse_state 1) s in
    fst (set_enabled true now s).

(** [TWCSimulator.set_ocpp_connected] *)
Definition set_ocpp_connected (connected : bool) (now : Time)
    (s : TWCSimulator) : TWCSimulator :=
  let s := with_ocpp_connected connected s in
  if connected then with_last_seen now s
  else
    let s := on_vitals (with_evse_state 0) s in
    let s := on_vitals (with_contactor_closed false) s in
    with_charging_start_time None s.

(** The session-time step of [update_from_client]:
    [if self.charging_start_time: if timestamp: try ... except ValueError ...
     else: self.vitals.session_s = 0].
    [timestamp] is [None] for an absent or empty (falsy) timestamp, and the
    parse of the string otherwise.  The start time is timezone-aware, so
    subtracting it from a naive datetime raises [TypeError], which the
    [except ValueError] clause does not catch. *)
Definition update_session_time (now : Time) (timestamp : option IsoParse)
    (s : TWCSimulator) : result TWCSimulator :=
  match charging_start_time s with
  | Some started =>
      match timestamp with
      | None => Returned s
      | Some (IsoAware charge_time) =>
          Returned
            (on_vitals (with_session_s (whole_seconds (charge_time - started))) s)
      | Some IsoInvalid =>
          Returned (on_vitals (with_session_s (whole_seconds (now - started))) s)
      | Some (IsoNaive _) => Raised s
      end
  | None => Returned (on_vitals (with_session_s 0) s)
  end.

(** The first part of [update_from_client] (up to "Update both energy
    counters"): per-phase currents and their positive sum, per-phase
    voltages and their mean, frequency and the two energy counters. *)
Definition update_readings (currents voltages : PyDict.t)
    (frequency session_energy total_energy : float) (s : TWCSimulator)
  : TWCSimulator :=
  let s := on_vitals (with_currentA_a (PyDict.get currents "L1" 0)) s in
  let s := on_vitals (with_currentB_a (PyDict.get currents "L2" 0)) s in
  let s := on_vitals (with_currentC_a (PyDict.get currents "L3" 0)) s in
  let s := on_vitals (with_currentN_a (PyDict.get currents "N" 0)) s in
  let s :=
    on_vitals
      (with_vehicle_current_a
         (py_sum
            (filter (fun c => gt c 0)
               [currentA_a (vitals s); currentB_a (vitals s);
                currentC_a (vitals s)]))) s in
  let s := on_vitals (with_voltageA_v (PyDict.get voltages "L1" 230)) s in
  let s := on_vitals (with_voltageB_v (PyDict.get voltages "L2" 230)) s in
  let s := on_vitals (with_voltageC_v (PyDict.get voltages "L3" 230)) s in
  let active_voltages :=
    filter (fun v => gt v 2)
      [voltageA_v (vitals s); voltageB_v (vitals s); voltageC_v (vitals s)] in
  let s :=
    on_vitals
      (with_grid_v
         (match active_voltages with
          | [] => 230%float
          | _ => PrimFloat.div (py_sum active_voltages) (float_len active_voltages)
          end)) s in
  let s := on_vitals (with_grid_hz frequency) s in
  let s := on_vitals (with_session_energy_wh session_energy) s in
  on_vitals (with_total_energy_wh total_energy) s.

(** The last part of [update_from_client] (from "Update pilot signal
    values"): indicator voltages, uptime and temperatures.  The uptime is
    [int(now.timestamp() - self.start_time.timestamp())], a difference of
    two binary64 timestamps. *)
Definition update_indicators (now : Time) (pcba_temp : float) (s : TWCSimulator)
  : TWCSimulator :=
  let ready_or_charging :=
    (evse_state (vitals s) =? 2) || (evse_state (vitals s) =? 3) in
  let s := on_vitals (with_pilot_high_v (if ready_or_charging then 12 else 0)) s in
  let s := on_vitals (with_pilot_low_v (if ready_or_charging then 12 else 0)) s in
  let s :=
    on_vitals (with_relay_coil_v (if contactor_closed (vitals s) then 12 else 0)) s in
  let s :=
    on_vitals
      (with_uptime_s
         (py_int (PrimFloat.sub (py_timestamp now) (py_timestamp (start_time s)))))
      s in
  let s := on_vitals (with_pcba_temp_c pcba_temp) s in
  let s := on_vitals (with_handle_temp_c 20) s in
  on_vitals (with_mcu_temp_c 20) s.

(** [TWCSimulator.update_from_client], run at instant [now]; [power] is
    accepted and not used, as in the source. *)
Definition update_from_client (now : Time) (power : float)
    (currents voltages : PyDict.t)
    (frequency session_energy total_energy pcba_temp : float)
    (timestamp : option IsoParse) (s : TWCSimulator) : result TWCSimulator :=
  let s :=
    update_readings currents voltages frequency session_energy total_energy s in
  match update_session_time now timestamp s with
  | Raised s => Raised s
  | Returned s => Returned (update_indicators now pcba_temp s)
  end.

(** The values a snapshot or a reply body holds. *)
Inductive PyValue : Type :=
| PyBool (b : bool)
| PyInt (z : Z)
| PyFloat (f : float)
| PyStr (s : string)
| PyList (l : list string).

(** [Vitals.to_dict]: the fields in declaration order (no field is ever
    [None], so the substitution of [[]] never applies). *)
Definition to_dict (v : Vitals) : list (string * PyValue) :=
  [
   ("contactor_closed", PyBool (contactor_closed v));
   ("vehicle_connected", PyBool (vehicle_connected v));
   ("session_s", PyInt (session_s v));
   ("grid_v", PyFloat (grid_v v));
   ("grid_hz", PyFloat (grid_hz v));
   ("vehicle_current_a", PyFloat (vehicle_current_a v));
   ("currentA_a", PyFloat (currentA_a v));
   ("currentB_a", PyFloat (currentB_a v));
   ("currentC_a", PyFloat (currentC_a v));
   ("currentN_a", PyFloat (currentN_a v));
   ("voltageA_v", PyFloat (voltageA_v v));
   ("voltageB_v", PyFloat (voltageB_v v));
   ("voltageC_v", PyFloat (voltageC_v v));
   ("relay_coil_v", PyFloat (relay_coil_v v));
   ("pcba_temp_c", PyFloat (pcba_temp_c v));
   ("handle_temp_c", PyFloat (handle_temp_c v));
   ("mcu_temp_c", PyFloat (mcu_temp_c v));
   ("uptime_s", PyInt (uptime_s v));
   ("input_thermopile_uv", PyFloat (input_thermopile_uv v));
   ("prox_v", PyFloat (prox_v v));
   ("pilot_high_v", PyFloat (pilot_high_v v));
   ("pilot_low_v", PyFloat (pilot_low_v v));
   ("session_energy_wh", PyFloat (session_energy_wh v));
   ("total_energy_wh", PyFloat (total_energy_wh v));
   ("config_status", PyInt (config_status v));
   ("evse_state", PyInt (evse_state v));
   ("current_alerts", PyList (current_alerts v))
  ].

(** [TWCSimulator.EVSE_STATES] *)
Definition EVSE_STATES : list (Z * string) :=
  [(0, "unknown"); (1, "disabled"); (2, "ready"); (3, "charging"); (4, "error")].

(** [EVSE_STATES.get(k, default)] *)
Fixpoint states_get (d : list (Z * string)) (k : Z) (default : string) : string :=
  match d with
  | [] => default
  | (k', name) :: d' => if k' =? k then name else states_get d' k default
  end.

(** An HTTP reply as the handler builds it: the status code, the headers
    and the JSON body it passes, if any. *)
Module Response.

Record t : Type := Build {
  status : Z;
  headers : list (string * string);
  body : option (list (string * PyValue))
}.

End Response.

(** The [headers] of the replies to [GET]. *)
Definition cors_headers : list (string * string) :=
  [("Access-Control-Allow-Origin", "*");
   ("Access-Control-Allow-Methods", "GET");
   ("Access-Control-Allow-Headers", "Content-Type")].

(** [TWCSimulator.handle_twc3_request], on the request's [method]. *)
Definition handle_twc3_request (method : string) (s : TWCSimulator)
  : Response.t :=
  if (method =? "GET")%string then
    if negb (ocpp_connected s) then
      Response.Build 503 cors_headers
        (Some
           [("error", PyStr "OCPP client not connected");
            ("state", PyStr (states_get EVSE_STATES 0 "unknown"));
            ("status", PyStr "offline")])
    else
      Response.Build 200 cors_headers (Some (to_dict (vitals s)))
  else
    Response.Build 405 [] None.

End Twc.

(** ** server.py *)
Module Server.

(** [class ChargingSession] *)
Module ChargingSession.

Record t : Type := Build {
  id_tag : string;
  transaction_id : Z;
  meter_start : Z;
  start_time : Time;
  total_energy_start : float;
  session_energy : float
}.

(** [session.session_energy = x] *)
Definition with_session_energy (x : float) (c : t) : t :=
  Build (id_tag c) (transaction_id c) (meter_start c) (start_time c)
    (total_energy_start c) x.

End ChargingSession.

(** [class ChargePoint]: the attributes this class adds.  The simulator is
    held by reference and outlives the charge point; it is threaded through
    the field [twc]. *)
Record ChargePoint : Type := Build_ChargePoint {
  twc : Twc.TWCSimulator;
  transaction_id : option Z;
  last_session : option ChargingSession.t
}.

Definition with_twc (x : Twc.TWCSimulator) (c : ChargePoint) : ChargePoint :=
  Build_ChargePoint x (transaction_id c) (last_session c).

Definition with_transaction_id (x : option Z) (c : ChargePoint) : ChargePoint :=
  Build_ChargePoint (twc c) x (last_session c).

Definition with_last_session (x : option ChargingSession.t) (c : ChargePoint)
  : ChargePoint :=
  Build_ChargePoint (twc c) (transaction_id c) x.

(** [ChargePoint.__init__], run at instant [now] on the simulator [t]. *)
Definition init (now : Time) (t : Twc.TWCSimulator) : ChargePoint :=
  Build_ChargePoint (Twc.set_ocpp_connected true now t) None None.

(** The [finally] clause of [ChargePoint.start]: the link is gone. *)
Definition disconnect (now : Time) (self : ChargePoint) : ChargePoint :=
  with_twc (Twc.set_ocpp_connected false now (twc self)) self.

(** [ChargePoint.on_status_notification].  [now_enable] is the clock read by
    the [set_enabled] call inside [set_error(False)], [now_connect] the one
    read by [set_vehicle_connected]. *)
Definition on_status_notification (now_enable now_connect : Time)
    (connector_id : Z) (error_code status : string) (self : ChargePoint)
  : ChargePoint :=
  if negb (error_code =? "NoError")%string then
    with_twc (Twc.set_error true now_enable (twc self)) self
  else
    let t := Twc.set_error false now_enable (twc self) in
    let t :=
      if (status =? "Charging")%string then
        Twc.set_vehicle_connected true now_connect t
      else if (status =? "SuspendedEVSE")%string then
        let t := Twc.set_vehicle_connected true now_connect t in
        let t := Twc.on_vitals (Twc.with_evse_state 2) t in
        Twc.on_vitals (Twc.with_contactor_closed false) t
      else if (status =? "SuspendedEV")%string then
        let t := Twc.set_vehicle_connected true now_connect t in
        let t := Twc.on_vitals (Twc.with_evse_state 2) t in
        Twc.on_vitals (Twc.with_contactor_closed false) t
      else
        Twc.set_vehicle_connected false now_connect t in
    with_twc t self.

(** [ChargePoint.on_start_transaction]: the new object and the
    [transaction_id] of the reply.  [timestamp] is the parse of the string
    received; a [ValueError] falls back to [now]. *)
Definition on_start_transaction (now : Time) (connector_id : Z)
    (id_tag : string) (meter_start : Z) (timestamp : IsoParse)
    (self : ChargePoint) : ChargePoint * Z :=
  let timestamp_dt :=
    match timestamp with
    | IsoInvalid => now
    | IsoAware t => t
    | IsoNaive t => t
    end in
  let tid := whole_seconds timestamp_dt in
  let self := with_transaction_id (Some tid) self in
  let total_energy_start := Twc.total_energy_wh (Twc.vitals (twc self)) in
  let session_energy :=
    match last_session self with
    | Some last =>
        if (ChargingSession.id_tag last =? id_tag)%string
        then ChargingSession.session_energy last
        else 0%float
    | None => 0%float
    end in
  let self :=
    with_last_session
      (Some (ChargingSession.Build id_tag tid meter_start timestamp_dt
               total_energy_start session_energy)) self in
  (self, tid).

(** [ChargePoint.on_stop_transaction] *)
Definition on_stop_transaction (meter_stop : Z) (timestamp : IsoParse)
    (transaction_id : Z) (self : ChargePoint) : ChargePoint :=
  with_transaction_id None self.

(** One entry of [sampled_value], after the [.get] defaults: [measurand]
    and [phase] default to the empty string; [value] is the outcome of
    [float(sv.get('value', '0'))], [None] when it raises [ValueError].  The
    [unit] key is only logged. *)
Record SampledValue : Type := Build_SampledValue {
  measurand : string;
  value : option float;
  phase : string
}.

(** One entry of [meter_value]: [timestamp] is [None] when the key is
    absent or the string is empty. *)
Record Reading : Type := Build_Reading {
  sampled_value : list SampledValue;
  timestamp : option IsoParse
}.

(** The local variables of the body of the loop over readings. *)
Record Locals : Type := Build_Locals {
  currents : PyDict.t;
  voltages : PyDict.t;
  powers : PyDict.t;
  frequency : float;
  session_energy : float;
  total_energy : float;
  temperature : float;
  current_offered : float;
  power_offered : float;
  interval_energy_reported : bool
}.

Definition with_currents (x : PyDict.t) (l : Locals) : Locals :=
  Build_Locals x (voltages l) (powers l) (frequency l) (session_energy l)
    (total_energy l) (temperature l) (current_offered l) (power_offered l)
    (interval_energy_reported l).

Definition with_voltages (x : PyDict.t) (l : Locals) : Locals :=
  Build_Locals (currents l) x (powers l) (frequency l) (session_energy l)
    (total_energy l) (temperature l) (current_offered l) (power_offered l)
    (interval_energy_reported l).

Definition with_powers (x : PyDict.t) (l : Locals) : Locals :=
  Build_Locals (currents l) (voltages l) x (frequency l) (session_energy l)
    (total_energy l) (temperature l) (current_offered l) (power_offered l)
    (interval_energy_reported l).

Definition with_frequency (x : float) (l : Locals) : Locals :=
  Build_Locals (currents l) (voltages l) (powers l) x (session_energy l)
    (total_energy l) (temperature l) (current_offered l) (power_offered l)
    (interval_energy_reported l).

Definition with_session_energy (x : float) (l : Locals) : Locals :=
  Build_Locals (currents l) (voltages l) (powers l) (frequency l) x
    (total_energy l) (temperature l) (current_offered l) (power_offered l)
    (interval_energy_reported l).

Definition with_total_energy (x : float) (l : Locals) : Locals :=
  Build_Locals (currents l) (voltages l) (powers l) (frequency l)
    (session_energy l) x (temperature l) (current_offered l) (power_offered
    l) (interval_energy_reported l).

Definition with_temperature (x : float) (l : Locals) : Locals :=
  Build_Locals (currents l) (voltages l) (powers l) (frequency l)
    (session_energy l) (total_energy l) x (current_offered l) (power_offered
    l) (interval_energy_reported l).

Definition with_current_offered (x : float) (l : Locals) : Locals :=
  Build_Locals (currents l) (voltages l) (powers l) (frequency l)
    (session_energy l) (total_energy l) (temperature l) x (power_offered l)
    (interval_energy_reported l).

Definition with_power_offered (x : float) (l : Locals) : Locals :=
  Build_Locals (currents l) (voltages l) (powers l) (frequency l)
    (session_energy l) (total_energy l) (temperature l) (current_offered l)
    x (interval_energy_reported l).

Definition with_interval_energy_reported (x : bool) (l : Locals) : Locals :=
  Build_Locals (currents l) (voltages l) (powers l) (frequency l)
    (session_energy l) (total_energy l) (temperature l) (current_offered l)
    (power_offered l) x.

(** Their values before the sampled values are processed. *)
Definition locals0 : Locals :=
  Build_Locals
    [("L1", 0%float); ("L2", 0%float); ("L3", 0%float); ("N", 0%float)]
    [("L1", 0%float); ("L2", 0%float); ("L3", 0%float); ("N", 0%float)]
    [("L1", 0%float); ("L2", 0%float); ("L3", 0%float)]
    50 0 0 20 0 0 false.

(** Truth value of a string. *)
Definition nonempty (s : string) : bool := negb (s =? "")%string.

(** The [if]/[elif] chain applied to one sampled value whose [value] is the
    float [x]. *)
Definition dispatch (sv : SampledValue) (x : float) (l : Locals) : Locals :=
  let m := measurand sv in
  if (m =? "Current.Import")%string && nonempty (phase sv) then
    with_currents (PyDict.set (currents l) (phase sv) x) l
  else if (m =? "Current.Offered")%string then with_current_offered x l
  else if (m =? "Voltage")%string && nonempty (phase sv) then
    with_voltages (PyDict.set (voltages l) (phase sv) x) l
  else if (m =? "Power.Active.Import")%string && nonempty (phase sv) then
    with_powers (PyDict.set (powers l) (phase sv) x) l
  else if (m =? "Power.Offered")%string then with_power_offered x l
  else if (m =? "Frequency")%string then with_frequency x l
  else if (m =? "Energy.Active.Import.Register")%string then
    with_total_energy x l
  else if (m =? "Energy.Active.Import.Interval")%string then
    with_interval_energy_reported true (with_session_energy x l)
  else if (m =? "Temperature")%string then with_temperature x l
  else l.

(** [for sv in sampled_values: ...]; [None] when some [float(...)] raises. *)
Fixpoint process_values (svs : list SampledValue) (l : Locals) : option Locals :=
  match svs with
  | [] => Some l
  | sv :: rest =>
      match value sv with
      | None => None
      | Some x => process_values rest (dispatch sv x l)
      end
  end.

(** [if not interval_energy_reported and self.last_session: ...] *)
Definition derive_session_energy (l : Locals) (self : ChargePoint) : ChargePoint :=
  match last_session self with
  | Some last =>
      if negb (interval_energy_reported l) then
        let session_energy :=
          PrimFloat.sub (total_energy l) (ChargingSession.total_energy_start last) in
        with_last_session
          (Some (ChargingSession.with_session_energy (py_max0 session_energy) last))
          self
      else self
  | None => self
  end.

(** The body of [for reading in meter_value], run at instant [now]. *)
Definition handle_reading (now : Time) (reading : Reading) (self : ChargePoint)
  : result ChargePoint :=
  match process_values (sampled_value reading) locals0 with
  | None => Raised self
  | Some l =>
      let self := derive_session_energy l self in
      let r :=
        Twc.update_from_client now
          (py_sum (PyDict.values (powers l)))
          (currents l) (voltages l) (frequency l)
          (match last_session self with
           | Some last => ChargingSession.session_energy last
           | None => 0%float
           end)
          (total_energy l) (temperature l) (timestamp reading) (twc self) in
      match r with
      | Returned t => Returned (with_twc t self)
      | Raised t => Raised (with_twc t self)
      end
  end.

(** [for reading in meter_value]: reading number [i] is handled at instant
    [clock i]; the loop ends at the first exception. *)
Fixpoint meter_loop (clock : nat -> Time) (i : nat) (meter_value : list Reading)
    (self : ChargePoint) : result ChargePoint :=
  match meter_value with
  | [] => Returned self
  | reading :: rest =>
      match handle_reading (clock i) reading self with
      | Returned self => meter_loop clock (S i) rest self
      | Raised self => Raised self
      end
  end.

(** [ChargePoint.on_meter_values]: the [except Exception] clause logs and
    the handler returns normally whatever happened. *)
Definition on_meter_values (clock : nat -> Time) (connector_id : Z)
    (meter_value : list Reading) (self : ChargePoint) : ChargePoint :=
  state_of (meter_loop clock 0 meter_value self).

End Server.

(** * Notions used by the statements *)

(** Reachable simulator states: a fresh simulator, then any sequence of the
    state-machine operations and of status notifications (whose handler acts
    on the simulator of the charge point that receives them). *)
Inductive twc_step : Twc.TWCSimulator -> Twc.TWCSimulator -> Prop :=
| step_set_enabled (enabled : bool) (now : Time) (s : Twc.TWCSimulator) :
    twc_step s (fst (Twc.set_enabled enabled now s))
| step_set_vehicle_connected (connected : bool) (now : Time)
    (s : Twc.TWCSimulator) :
    twc_step s (Twc.set_vehicle_connected connected now s)
| step_set_error (has_error : bool) (now : Time) (s : Twc.TWCSimulator) :
    twc_step s (Twc.set_error has_error now s)
| step_set_ocpp_connected (connected : bool) (now : Time)
    (s : Twc.TWCSimulator) :
    twc_step s (Twc.set_ocpp_connected connected now s)
| step_status_notification (now_enable now_connect : Time) (connector_id : Z)
    (error_code status : string) (cp : Server.ChargePoint) :
    twc_step (Server.twc cp)
      (Server.twc
         (Server.on_status_notification now_enable now_connect connector_id
            error_code status cp)).

Inductive reachable : Twc.TWCSimulator -> Prop :=
| reachable_init (now : Time) : reachable (Twc.init now)
| reachable_step (s s' : Twc.TWCSimulator) :
    reachable s -> twc_step s s' -> reachable s'.

(** The contactor is closed only while charging with a vehicle plugged in. *)
Definition contactor_consistent (s : Twc.TWCSimulator) : Prop :=
  Twc.contactor_closed (Twc.vitals s) = true ->
  Twc.evse_state (Twc.vitals s) = 3
  /\ Twc.vehicle_connected (Twc.vitals s) = true.

(** The simulator after an error was reported to a fresh one. *)
Definition in_error : Twc.TWCSimulator := Twc.set_error true 0 (Twc.init 0).

(** A fresh simulator, enabled, then a vehicle plugged in. *)
Definition plugged_in : Twc.TWCSimulator :=
  Twc.set_vehicle_connected true 2000000
    (fst (Twc.set_enabled true 1000000 (Twc.init 0))).

(** The sum of the strictly positive ones among three phase currents. *)
Definition positive_phase_sum (a b c : float) : float :=
  py_sum (filter (fun x => gt x 0) [a; b; c]).

(** What a reading says, read off its entries directly. *)

(** Every [value] of the reading is a string [float] accepts. *)
Definition values_parse (r : Server.Reading) : bool :=
  forallb (fun sv => match Server.value sv with Some _ => true | None => false end)
    (Server.sampled_value r).

(** The reading carries an explicit interval energy. *)
Definition reports_interval (r : Server.Reading) : bool :=
  existsb
    (fun sv => (Server.measurand sv =? "Energy.Active.Import.Interval")%string)
    (Server.sampled_value r).

(** The cumulative energy the reading reports: the value of its last
    [Energy.Active.Import.Register] entry, [0] when it has none. *)
Definition reported_total (r : Server.Reading) : float :=
  fold_left
    (fun total sv =>
       if (Server.measurand sv =? "Energy.Active.Import.Register")%string
       then match Server.value sv with Some x => x | None => total end
       else total)
    (Server.sampled_value r) 0%float.

(** The reading's timestamp is absent, unparsable or timezone-aware: the
    cases in which [update_from_client] returns. *)
Definition timestamp_usable (r : Server.Reading) : bool :=
  match Server.timestamp r with
  | Some (IsoNaive _) => false
  | _ => true
  end.

(** A reading the loop of [on_meter_values] gets past. *)
Definition passes (r : Server.Reading) : bool :=
  values_parse r && timestamp_usable r.

(** The energy of the remembered session, if there is one. *)
Definition remembered_energy (cp : Server.ChargePoint) : option float :=
  option_map Server.ChargingSession.session_energy (Server.last_session cp).

(** Concrete traffic used in the examples. *)

(** A sampled value without phase tag. *)
Definition entry (measurand : string) (x : float) : Server.SampledValue :=
  Server.Build_SampledValue measurand (Some x) "".

(** A charge point just connected to a fresh simulator. *)
Definition connected : Server.ChargePoint := Server.init 0 (Twc.init 0).

(** ... after start-transaction with [id_tag = "TEST"], [meter_start = 0]. *)
Definition started : Server.ChargePoint :=
  fst (Server.on_start_transaction 0 1 "TEST" 0 (IsoAware 5000000) connected).

(** A reading with [total_energy_wh = 50] and an explicit interval
    energy of [50]. *)
Definition reading_50_50 : Server.Reading :=
  Server.Build_Reading
    [entry "Energy.Active.Import.Register" 50;
     entry "Energy.Active.Import.Interval" 50]
    (Some (IsoAware 6000000)).

(** ... after that reading arrived. *)
Definition metered : Server.ChargePoint :=
  Server.on_meter_values (fun _ => 6000000) 1 [reading_50_50] started.

(** ... after stop-transaction, then a second start-transaction with
    [id_tag = "TEST"]. *)
Definition restarted : Server.ChargePoint :=
  fst (Server.on_start_transaction 0 1 "TEST" 50 (IsoAware 8000000)
         (Server.on_stop_transaction 50 (IsoAware 7000000) 5 metered)).

(** A reading that only reports the cumulative counter. *)
Definition register_only (total : float) : Server.Reading :=
  Server.Build_Reading [entry "Energy.Active.Import.Register" total] None.

(** A charge point whose session started when the counter stood at 100. *)
Definition started_at_100 : Server.ChargePoint :=
  fst (Server.on_start_transaction 0 1 "TEST" 0 (IsoAware 5000000)
         (Server.on_meter_values (fun _ => 4000000) 1 [register_only 100]
            connected)).

(** A charge point whose simulator is charging a plugged-in vehicle. *)
Definition charging_point : Server.ChargePoint :=
  Server.Build_ChargePoint plugged_in None None.

(** A reading that reports the cumulative counter at 135, without interval
    energy, and a temperature whose value [float] rejects. *)
Definition reading_135_unparsable : Server.Reading :=
  Server.Build_Reading
    [entry "Energy.Active.Import.Register" 135;
     Server.Build_SampledValue "Temperature" None ""]
    None.

(** ** The bridge as a whole ([__main__.py]) *)

(** [main] creates one simulator; [on_connect] creates a charge point on
    it for each connection, runs its message loop, and the [finally] clause
    of [ChargePoint.start] marks the link as gone.  With one connection at a
    time, the bridge is either a simulator without charge point or a charge
    point holding the simulator. *)
Inductive Bridge : Type :=
| Unlinked (t : Twc.TWCSimulator)
| Linked (cp : Server.ChargePoint).

Definition simulator (b : Bridge) : Twc.TWCSimulator :=
  match b with
  | Unlinked t => t
  | Linked cp => Server.twc cp
  end.

(** A connection is made or lost, or the linked charge point handles one
    of the calls that change state. *)
Inductive bridge_step : Bridge -> Bridge -> Prop :=
| step_link (now : Time) (t : Twc.TWCSimulator) :
    bridge_step (Unlinked t) (Linked (Server.init now t))
| step_unlink (now : Time) (cp : Server.ChargePoint) :
    bridge_step (Linked cp) (Unlinked (Server.twc (Server.disconnect now cp)))
| step_status (now_enable now_connect : Time) (connector_id : Z)
    (error_code status : string) (cp : Server.ChargePoint) :
    bridge_step (Linked cp)
      (Linked
         (Server.on_status_notification now_enable now_connect connector_id
            error_code status cp))
| step_start (now : Time) (connector_id : Z) (id_tag : string)
    (meter_start : Z) (timestamp : IsoParse) (cp : Server.ChargePoint) :
    bridge_step (Linked cp)
      (Linked
         (fst (Server.on_start_transaction now connector_id id_tag meter_start
                 timestamp cp)))
| step_stop (meter_stop : Z) (timestamp : IsoParse) (transaction_id : Z)
    (cp : Server.ChargePoint) :
    bridge_step (Linked cp)
      (Linked (Server.on_stop_transaction meter_stop timestamp transaction_id cp))
| step_meter (clock : nat -> Time) (connector_id : Z)
    (meter_value : list Server.Reading) (cp : Server.ChargePoint) :
    bridge_step (Linked cp)
      (Linked (Server.on_meter_values clock connector_id meter_value cp)).

Inductive bridge_reachable : Bridge -> Prop :=
| bridge_fresh (now : Time) : bridge_reachable (Unlinked (Twc.init now))
| bridge_next (b b' : Bridge) :
    bridge_reachable b -> bridge_step b b' -> bridge_reachable b'.

(** The state machine is coherent: the contactor is closed exactly in state
    3, and then a vehicle is connected and the charge-start time is set; the
    state is one of the five of [EVSE_STATES]. *)
Definition machine_coherent (s : Twc.TWCSimulator) : Prop :=
  (Twc.contactor_closed (Twc.vitals s) = true <-> Twc.evse_state (Twc.vitals s) = 3)
  /\ (Twc.contactor_closed (Twc.vitals s) = true ->
      Twc.vehicle_connected (Twc.vitals s) = true
      /\ Twc.charging_start_time s <> None)
  /\ 0 <= Twc.evse_state (Twc.vitals s) <= 4.

(** [0 <= x] on floats (false on NaN). *)
Definition not_negative (x : float) : bool := PrimFloat.leb 0 x.

(** The ledger is coherent: an active transaction is the one of the
    remembered session, and no energy is negative. *)
Definition ledger_coherent (cp : Server.ChargePoint) : Prop :=
  (forall tid : Z,
      Server.transaction_id cp = Some tid ->
      option_map Server.ChargingSession.transaction_id (Server.last_session cp)
      = Some tid)
  /\ (forall e : float, remembered_energy cp = Some e -> not_negative e = true).

(** What holds of the bridge between any two events. *)
Definition bridge_coherent (b : Bridge) : Prop :=
  machine_coherent (simulator b)
  /\ Twc.evse_state (Twc.vitals (simulator b)) <> 1
  /\ not_negative (Twc.session_energy_wh (Twc.vitals (simulator b))) = true
  /\ match b with
     | Unlinked t =>
         Twc.ocpp_connected t = false
         /\ Twc.evse_state (Twc.vitals t) = 0
         /\ Twc.charging_start_time t = None
     | Linked cp =>
         Twc.ocpp_connected (Server.twc cp) = true /\ ledger_coherent cp
     end.

(** ** What a reading says, entry by entry *)

(** The value of the last entry that [sel] selects, [default] without
    one. *)
Definition last_entry (sel : Server.SampledValue -> bool) (default : float)
    (svs : list Server.SampledValue) : float :=
  fold_left
    (fun acc sv =>
       if sel sv
       then match Server.value sv with Some x => x | None => acc end
       else acc)
    svs default.

(** The entry is of measurand [m]. *)
Definition of_measurand (m : string) (sv : Server.SampledValue) : bool :=
  (Server.measurand sv =? m)%string.

(** The entry is of measurand [m] and tagged with phase [p]. *)
Definition tagged (m p : string) (sv : Server.SampledValue) : bool :=
  (Server.measurand sv =? m)%string && (Server.phase sv =? p)%string.

(** Measurands that are read per phase, and measurands that are read
    without regard to the phase. *)
Definition phase_scoped : list string :=
  ["Current.Import"; "Voltage"; "Power.Active.Import"].

Definition unscoped : list string :=
  ["Current.Offered"; "Power.Offered"; "Frequency";
   "Energy.Active.Import.Register"; "Energy.Active.Import.Interval";
   "Temperature"].

Definition mem (m : string) (ms : list string) : bool :=
  existsb (fun m' => (m =? m')%string) ms.

(** The entry is one the handler takes a value from. *)
Definition recognised (sv : Server.SampledValue) : bool :=
  (mem (Server.measurand sv) phase_scoped && Server.nonempty (Server.phase sv))
  || mem (Server.measurand sv) unscoped.

(** The reading without the entries the handler does not recognise. *)
Definition recognised_only (r : Server.Reading) : Server.Reading :=
  Server.Build_Reading (filter recognised (Server.sampled_value r))
    (Server.timestamp r).

(** Applies [f] to the object a call leaves. *)
Definition map_result {A B : Type} (f : A -> B) (r : result A) : result B :=
  match r with
  | Returned a => Returned (f a)
  | Raised a => Raised (f a)
  end.

(** A reading with one phase-tagged entry. *)
Definition phase_entry (measurand phase : string) (x : float)
  : Server.SampledValue :=
  Server.Build_SampledValue measurand (Some x) phase.

(** What a meter-values event has no business changing: the state machine,
    the link, the active transaction, and the remembered session apart from
    its energy. *)
Definition outside_telemetry (cp : Server.ChargePoint)
  : Z * bool * bool * option Time * bool * option Z
    * option Server.ChargingSession.t :=
  (Twc.evse_state (Twc.vitals (Server.twc cp)),
   Twc.contactor_closed (Twc.vitals (Server.twc cp)),
   Twc.vehicle_connected (Twc.vitals (Server.twc cp)),
   Twc.charging_start_time (Server.twc cp),
   Twc.ocpp_connected (Server.twc cp),
   Server.transaction_id cp,
   option_map (Server.ChargingSession.with_session_energy 0)
     (Server.last_session cp)).

(** * Properties *)

(** ** The EVSE state machine ([twc.py]) *)

Section StateMachine.

Import Twc.

(** C5: whatever the simulator's state, [set_ocpp_connected(False)]
    leaves it with [evse_state = 0] (unknown), the contactor open and no
    charge-start time. *)
Theorem set_ocpp_connected_false_resets :
  forall (now : Time) (s : TWCSimulator),
    evse_state (vitals (set_ocpp_connected false now s)) = 0
    /\ contactor_closed (vitals (set_ocpp_connected false now s)) = false
    /\ charging_start_time (set_ocpp_connected false now s) = None.
Proof. intros now s. repeat split. Qed.

(** C7: in the error state [set_enabled(True)] returns [False] and hands
    back the simulator untouched (vitals and charge-start time included);
    in any other state [set_enabled] returns [True], whatever its
    argument. *)
Theorem set_enabled_fails_only_in_error :
  forall (now : Time) (s : TWCSimulator),
    (evse_state (vitals s) = 4 -> set_enabled true now s = (s, false))
    /\ (evse_state (vitals s) <> 4 ->
        forall enabled : bool, snd (set_enabled enabled now s) = true).
Proof.
  intros now s. split.
  - intros E. unfold set_enabled. rewrite E. reflexivity.
  - intros E [|]; unfold set_enabled; [|reflexivity].
    destruct (Z.eqb_spec (evse_state (vitals s)) 4) as [E4|_]; [contradiction|].
    destruct (vehicle_connected (vitals s)); reflexivity.
Qed.

Lemma set_enabled_fails_only_in_error_witness :
  set_enabled true 7 in_error = (in_error, false)
  /\ snd (set_enabled true 7 (init 0)) = true.
Proof.
  split.
  - apply (proj1 (set_enabled_fails_only_in_error 7 in_error)). reflexivity.
  - apply (proj2 (set_enabled_fails_only_in_error 7 (init 0))).
    vm_compute. discriminate.
Defined.

(** C8: a second [set_vehicle_connected(True)] changes nothing: the
    simulator (vitals and charge-start time) is the one the first call
    left, at whatever instants the two calls run. *)
Theorem set_vehicle_connected_true_idempotent :
  forall (now1 now2 : Time) (s : TWCSimulator),
    set_vehicle_connected true now2 (set_vehicle_connected true now1 s)
    = set_vehicle_connected true now1 s.
Proof.
  intros now1 now2 s.
  destruct (evse_state (vitals s) =? 2) eqn:E;
    destruct (charging_start_time s) eqn:C;
    destruct s as [[] ? ? ? ? ?]; cbn in E, C.
  all: unfold set_vehicle_connected at 2; cbn; rewrite E; cbn; rewrite ?C; cbn.
  all: unfold set_vehicle_connected; cbn; rewrite ?E; reflexivity.
Qed.

(** *** The contactor invariant *)

(** Decides the comparisons of [evse_state] met in a goal. *)
Ltac split_states :=
  repeat match goal with
    | |- context [?e =? ?k] => destruct (Z.eqb_spec e k)
    end.

Ltac by_cases s :=
  unfold contactor_consistent;
  destruct s as [[cc vc ? ? ? ? ? ? ? ? ? ? ? ? ? ? ? ? ? ? ? ? ? ? ? es ?] ? ? cst ? ?];
  cbn; intros H.

Lemma set_enabled_consistent (enabled : bool) (now : Time) (s : TWCSimulator) :
  contactor_consistent s ->
  contactor_consistent (fst (set_enabled enabled now s)).
Proof.
  by_cases s. unfold set_enabled; cbn.
  destruct enabled; split_states; destruct vc, cst; cbn; intuition congruence.
Qed.

Lemma set_vehicle_connected_consistent (connected : bool) (now : Time)
    (s : TWCSimulator) :
  contactor_consistent s ->
  contactor_consistent (set_vehicle_connected connected now s).
Proof.
  by_cases s. unfold set_vehicle_connected; cbn.
  destruct connected; cbn; split_states; destruct cst; cbn;
    intuition congruence.
Qed.

Lemma set_error_consistent (has_error : bool) (now : Time) (s : TWCSimulator) :
  contactor_consistent s ->
  contactor_consistent (set_error has_error now s).
Proof.
  by_cases s. unfold set_error, set_enabled; cbn.
  destruct has_error; cbn; [intuition congruence|].
  destruct vc, cst; cbn; intuition congruence.
Qed.

Lemma set_ocpp_connected_consistent (connected : bool) (now : Time)
    (s : TWCSimulator) :
  contactor_consistent s ->
  contactor_consistent (set_ocpp_connected connected now s).
Proof.
  by_cases s. unfold set_ocpp_connected; cbn.
  destruct connected; cbn; intuition congruence.
Qed.

(** Forcing [evse_state = 2] and opening the contactor, as the handler
    does for the suspended statuses. *)
Lemma forced_ready_consistent (s : TWCSimulator) :
  contactor_consistent
    (on_vitals (with_contactor_closed false) (on_vitals (with_evse_state 2) s)).
Proof. by_cases s. discriminate. Qed.

Lemma on_status_notification_consistent (now_enable now_connect : Time)
    (connector_id : Z) (error_code status : string) (cp : Server.ChargePoint) :
  contactor_consistent (Server.twc cp) ->
  contactor_consistent
    (Server.twc
       (Server.on_status_notification now_enable now_connect connector_id
          error_code status cp)).
Proof.
  intros H. unfold Server.on_status_notification.
  destruct (negb (error_code =? "NoError")%string); cbn [Server.twc Server.with_twc].
  - now apply set_error_consistent.
  - repeat match goal with
      | |- context [if ?b then _ else _] => destruct b
      end;
      auto using forced_ready_consistent, set_vehicle_connected_consistent,
        set_error_consistent.
Qed.

Lemma step_consistent (s s' : TWCSimulator) :
  twc_step s s' -> contactor_consistent s -> contactor_consistent s'.
Proof.
  intros [] H;
    auto using set_enabled_consistent, set_vehicle_connected_consistent,
      set_error_consistent, set_ocpp_connected_consistent,
      on_status_notification_consistent.
Qed.

Lemma reachable_consistent (s : TWCSimulator) :
  reachable s -> contactor_consistent s.
Proof.
  induction 1 as [now | s s' _ IH Hstep].
  - unfold contactor_consistent; cbn; discriminate.
  - eauto using step_consistent.
Qed.

(** C3: in every state reachable from a fresh simulator by
    [set_enabled], [set_vehicle_connected], [set_error],
    [set_ocpp_connected] and status notifications, a closed contactor
    implies [evse_state = 3] (charging). *)
Theorem contactor_closed_implies_charging :
  forall s : TWCSimulator,
    reachable s ->
    contactor_closed (vitals s) = true ->
    evse_state (vitals s) = 3.
Proof.
  intros s Hreach Hclosed.
  exact (proj1 (reachable_consistent s Hreach Hclosed)).
Qed.

Lemma plugged_in_reachable : reachable plugged_in.
Proof.
  unfold plugged_in.
  eapply reachable_step; [|apply step_set_vehicle_connected].
  eapply reachable_step; [|apply step_set_enabled].
  apply reachable_init.
Defined.

Lemma contactor_closed_implies_charging_witness :
  reachable plugged_in
  /\ contactor_closed (vitals plugged_in) = true
  /\ evse_state (vitals plugged_in) = 3.
Proof.
  split; [exact plugged_in_reachable|].
  split; [reflexivity|].
  apply (contactor_closed_implies_charging plugged_in);
    [exact plugged_in_reachable | reflexivity].
Defined.

End StateMachine.

(** ** Telemetry written into the snapshot ([twc.py]) *)

Section UpdateFromClient.

Import Twc.

(** Computes field projections of updated snapshots; floats, integer
    arithmetic and dictionary lookups stay folded. *)
Ltac project :=
  cbv -[PyDict.get py_sum filter gt float_len PrimFloat.div PrimFloat.ltb
        PrimFloat.sub py_int py_timestamp Z.eqb Z.sub whole_seconds].

Lemma update_session_time_vitals (now : Time) (timestamp : option IsoParse)
    (s : TWCSimulator) :
  exists n : Z,
    state_of (update_session_time now timestamp s)
    = on_vitals (with_session_s n) s.
Proof.
  unfold update_session_time.
  destruct (charging_start_time s) as [started|];
    [destruct timestamp as [[| |]|]|]; cbn [state_of]; eauto.
  all: exists (session_s (vitals s)); destruct s as [[] ? ? ? ? ?]; reflexivity.
Qed.

(** What a call leaves in the snapshot for the phase currents and
    their total, whether it returns or raises. *)
Lemma update_from_client_currents (now : Time) (power : float)
    (currents voltages : PyDict.t)
    (frequency session_energy total_energy pcba_temp : float)
    (timestamp : option IsoParse) (s : TWCSimulator) :
  let v :=
    vitals
      (state_of
         (update_from_client now power currents voltages frequency
            session_energy total_energy pcba_temp timestamp s)) in
  currentA_a v = PyDict.get currents "L1" 0
  /\ currentB_a v = PyDict.get currents "L2" 0
  /\ currentC_a v = PyDict.get currents "L3" 0
  /\ currentN_a v = PyDict.get currents "N" 0
  /\ vehicle_current_a v
     = py_sum
         (filter (fun c => gt c 0)
            [PyDict.get currents "L1" 0; PyDict.get currents "L2" 0;
             PyDict.get currents "L3" 0]).
Proof.
  unfold update_from_client.
  set (s1 := update_readings _ _ _ _ _ _).
  destruct (update_session_time_vitals now timestamp s1) as [n Hn].
  destruct (update_session_time now timestamp s1) as [s2|s2];
    cbn [state_of] in *; subst s2 s1;
    destruct s as [[] ? ? ? ? ?]; project; repeat split.
Qed.

(** The energy counters handed to a call are in the snapshot afterwards,
    whether it returns or raises. *)
Lemma update_from_client_energy (now : Time) (power : float)
    (currents voltages : PyDict.t)
    (frequency session_energy total_energy pcba_temp : float)
    (timestamp : option IsoParse) (s : TWCSimulator) :
  let v :=
    vitals
      (state_of
         (update_from_client now power currents voltages frequency
            session_energy total_energy pcba_temp timestamp s)) in
  session_energy_wh v = session_energy /\ total_energy_wh v = total_energy.
Proof.
  unfold update_from_client.
  set (s1 := update_readings _ _ _ _ _ _).
  destruct (update_session_time_vitals now timestamp s1) as [n Hn].
  destruct (update_session_time now timestamp s1) as [s2|s2];
    cbn [state_of] in *; subst s2 s1;
    destruct s as [[] ? ? ? ? ?]; project; repeat split.
Qed.

(** A call touches neither the operational state, the contactor nor the
    charge-start time. *)
Lemma update_from_client_frame (now : Time) (power : float)
    (currents voltages : PyDict.t)
    (frequency session_energy total_energy pcba_temp : float)
    (timestamp : option IsoParse) (s : TWCSimulator) :
  let s' :=
    state_of
      (update_from_client now power currents voltages frequency
         session_energy total_energy pcba_temp timestamp s) in
  evse_state (vitals s') = evse_state (vitals s)
  /\ contactor_closed (vitals s') = contactor_closed (vitals s)
  /\ charging_start_time s' = charging_start_time s.
Proof.
  unfold update_from_client.
  set (s1 := update_readings _ _ _ _ _ _).
  destruct (update_session_time_vitals now timestamp s1) as [n Hn].
  destruct (update_session_time now timestamp s1) as [s2|s2];
    cbn [state_of] in *; subst s2 s1;
    destruct s as [[] ? ? ? ? ?]; project; repeat split.
Qed.

(** With a usable timestamp the call returns. *)
Lemma update_from_client_returns (now : Time) (power : float)
    (currents voltages : PyDict.t)
    (frequency session_energy total_energy pcba_temp : float)
    (timestamp : option IsoParse) (s : TWCSimulator) :
  match timestamp with Some (IsoNaive _) => False | _ => True end ->
  has_raised
    (update_from_client now power currents voltages frequency
       session_energy total_energy pcba_temp timestamp s) = false.
Proof.
  intros Hts. unfold update_from_client, update_session_time.
  set (s1 := update_readings _ _ _ _ _ _).
  destruct (charging_start_time s1);
    [destruct timestamp as [[| |]|]|]; try reflexivity; contradiction.
Qed.


(** C10: after every call of [update_from_client] (also one that
    raises on the timestamp), [vehicle_current_a] is the sum of the
    strictly positive ones among the snapshot's phase currents A, B and C;
    the neutral current and phase currents that are not above zero do not
    enter the sum. *)
Theorem vehicle_current_is_positive_phase_sum :
  forall (now : Time) (power : float) (currents voltages : PyDict.t)
    (frequency session_energy total_energy pcba_temp : float)
    (timestamp : option IsoParse) (s : TWCSimulator),
    let v :=
      vitals
        (state_of
           (update_from_client now power currents voltages frequency
              session_energy total_energy pcba_temp timestamp s)) in
    vehicle_current_a v
    = positive_phase_sum (currentA_a v) (currentB_a v) (currentC_a v).
Proof.
  intros.
  destruct (update_from_client_currents now power currents voltages
              frequency session_energy total_energy pcba_temp timestamp s)
    as (HA & HB & HC & _ & Hsum).
  subst v. rewrite Hsum, HA, HB, HC. reflexivity.
Qed.

(** Phases that are not above zero add nothing. *)
Lemma positive_phase_sum_skips (a b c : float) :
  positive_phase_sum a b c
  = py_sum
      ((if gt a 0 then [a] else [])
         ++ (if gt b 0 then [b] else [])
         ++ (if gt c 0 then [c] else [])).
Proof.
  unfold positive_phase_sum. cbn [filter].
  destruct (gt a 0), (gt b 0), (gt c 0); reflexivity.
Qed.

Lemma positive_phase_sum_none (a b c : float) :
  gt a 0 = false -> gt b 0 = false -> gt c 0 = false ->
  positive_phase_sum a b c = 0%float.
Proof.
  intros Ha Hb Hc. rewrite positive_phase_sum_skips, Ha, Hb, Hc. reflexivity.
Qed.

End UpdateFromClient.

(** ** Session ledger and telemetry translation ([server.py]) *)

Section Translator.

Import Server.

(** Dictionary assignment followed by lookup. *)
Lemma get_set_same (d : PyDict.t) (k : string) (v default : float) :
  PyDict.get (PyDict.set d k v) k default = v.
Proof.
  induction d as [|[k' v'] d IH]; cbn.
  - now rewrite String.eqb_refl.
  - destruct (String.eqb_spec k' k) as [->|Hne]; cbn.
    + now rewrite String.eqb_refl.
    + destruct (String.eqb_spec k' k); [contradiction|exact IH].
Qed.

Lemma get_set_other (d : PyDict.t) (k k0 : string) (v default : float) :
  k <> k0 ->
  PyDict.get (PyDict.set d k v) k0 default = PyDict.get d k0 default.
Proof.
  intros Hne. induction d as [|[k' v'] d IH]; cbn.
  - destruct (String.eqb_spec k k0); [contradiction|reflexivity].
  - destruct (String.eqb_spec k' k) as [->|Hk]; cbn.
    + destruct (String.eqb_spec k k0); [contradiction|reflexivity].
    + destruct (String.eqb_spec k' k0); [reflexivity|exact IH].
Qed.

(** Decides the string tests of the [if]/[elif] chain in a goal. *)
Ltac split_measurand :=
  repeat match goal with
    | |- context [(?m =? ?k)%string] =>
        destruct (String.eqb_spec m k) as [->|?]
    end.

Lemma dispatch_total_energy (sv : SampledValue) (x : float) (l : Locals) :
  total_energy (dispatch sv x l)
  = if (measurand sv =? "Energy.Active.Import.Register")%string
    then x else total_energy l.
Proof.
  unfold dispatch, nonempty.
  destruct sv as [m v p]; cbn [measurand phase].
  destruct (String.eqb_spec p "") as [->|Hp]; split_measurand;
    cbn; try reflexivity; congruence.
Qed.

Lemma dispatch_interval_flag (sv : SampledValue) (x : float) (l : Locals) :
  interval_energy_reported (dispatch sv x l)
  = (measurand sv =? "Energy.Active.Import.Interval")%string
    || interval_energy_reported l.
Proof.
  unfold dispatch, nonempty.
  destruct sv as [m v p]; cbn [measurand phase].
  destruct (String.eqb_spec p "") as [->|Hp]; split_measurand;
    cbn; try reflexivity; congruence.
Qed.

(** The loop over sampled values completes exactly when all values parse;
    it then holds the last register value and has raised the interval
    flag iff some entry is an interval energy. *)
Lemma process_values_spec (svs : list SampledValue) (l : Locals) :
  forallb (fun sv => match value sv with Some _ => true | None => false end) svs
  = true ->
  exists l' : Locals,
    process_values svs l = Some l'
    /\ total_energy l'
       = fold_left
           (fun total sv =>
              if (measurand sv =? "Energy.Active.Import.Register")%string
              then match value sv with Some x => x | None => total end
              else total) svs (total_energy l)
    /\ interval_energy_reported l'
       = existsb
           (fun sv => (measurand sv =? "Energy.Active.Import.Interval")%string)
           svs
         || interval_energy_reported l.
Proof.
  revert l. induction svs as [|sv svs IH]; intros l Hall.
  - exists l. repeat split.
  - cbn [forallb] in Hall. apply andb_true_iff in Hall as [Hsv Hrest].
    cbn [process_values fold_left existsb].
    destruct (value sv) as [x|] eqn:Hx; [|discriminate].
    destruct (IH (dispatch sv x l) Hrest) as (l' & Hrun & Htot & Hflag).
    exists l'. split; [exact Hrun|]. split.
    + rewrite Htot, dispatch_total_energy. reflexivity.
    + rewrite Hflag, dispatch_interval_flag.
      rewrite orb_assoc.
      rewrite (orb_comm (existsb _ svs)). reflexivity.
Qed.

Lemma process_values_fails (svs : list SampledValue) (l : Locals) :
  forallb (fun sv => match value sv with Some _ => true | None => false end) svs
  = false ->
  process_values svs l = None.
Proof.
  revert l. induction svs as [|sv svs IH]; intros l Hall; [discriminate|].
  cbn [forallb process_values] in *.
  destruct (value sv) as [x|]; [apply IH; exact Hall | reflexivity].
Qed.

(** A reading whose values parse, seen through [reported_total] and
    [reports_interval]. *)
Lemma process_reading (r : Reading) :
  values_parse r = true ->
  exists l : Locals,
    process_values (sampled_value r) locals0 = Some l
    /\ total_energy l = reported_total r
    /\ interval_energy_reported l = reports_interval r.
Proof.
  intros Hp.
  destruct (process_values_spec (sampled_value r) locals0 Hp)
    as (l & Hrun & Htot & Hflag).
  exists l. split; [exact Hrun|]. split; [exact Htot|].
  rewrite Hflag. cbn [locals0 interval_energy_reported].
  apply orb_false_r.
Qed.

End Translator.

Section Ledger.

Import Server.

(** *** One reading *)

Lemma derive_session_energy_twc (l : Locals) (cp : ChargePoint) :
  twc (derive_session_energy l cp) = twc cp.
Proof.
  unfold derive_session_energy.
  destruct (last_session cp); [destruct (negb _)|]; reflexivity.
Qed.

(** The session record after a reading whose values parse: untouched
    when the reading carries an interval energy, re-derived from the
    cumulative counter otherwise. *)
Lemma handle_reading_session (now : Time) (r : Reading) (cp : ChargePoint) :
  values_parse r = true ->
  last_session (state_of (handle_reading now r cp))
  = match last_session cp with
    | Some last =>
        if reports_interval r then Some last
        else
          Some
            (ChargingSession.with_session_energy
               (py_max0
                  (PrimFloat.sub (reported_total r)
                     (ChargingSession.total_energy_start last)))
               last)
    | None => None
    end.
Proof.
  intros Hp. destruct (process_reading r Hp) as (l & Hrun & Htot & Hflag).
  unfold handle_reading. rewrite Hrun.
  match goal with
  | |- context [Twc.update_from_client ?n ?p ?c ?v ?f ?se ?te ?t ?ts ?s] =>
      destruct (Twc.update_from_client n p c v f se te t ts s)
  end; cbn [state_of with_twc last_session];
    unfold derive_session_energy;
    destruct (last_session cp) as [last|] eqn:Hlast; try assumption;
    rewrite Hflag, Htot; destruct (reports_interval r); cbn; auto.
Qed.

(** The snapshot's session energy after such a reading is that of the
    session record ([0] without a record). *)
Lemma handle_reading_snapshot (now : Time) (r : Reading) (cp : ChargePoint) :
  values_parse r = true ->
  Twc.session_energy_wh (Twc.vitals (twc (state_of (handle_reading now r cp))))
  = match remembered_energy (state_of (handle_reading now r cp)) with
    | Some e => e
    | None => 0%float
    end.
Proof.
  intros Hp. destruct (process_reading r Hp) as (l & Hrun & _).
  unfold handle_reading, remembered_energy. rewrite Hrun.
  match goal with
  | |- context [Twc.update_from_client ?n ?p ?c ?v ?f ?se ?te ?t ?ts ?s] =>
      pose proof (Twc_energy :=
                    update_from_client_energy n p c v f se te t ts s);
      destruct (Twc.update_from_client n p c v f se te t ts s)
  end; cbn [state_of with_twc twc last_session] in *;
    destruct Twc_energy as [-> _];
    destruct (last_session (derive_session_energy l cp)); reflexivity.
Qed.

(** A reading that passes does not stop the loop. *)
Lemma handle_reading_returns (now : Time) (r : Reading) (cp : ChargePoint) :
  passes r = true -> has_raised (handle_reading now r cp) = false.
Proof.
  unfold passes, timestamp_usable. intros H.
  apply andb_true_iff in H as [Hp Hts].
  destruct (process_reading r Hp) as (l & Hrun & _).
  unfold handle_reading. rewrite Hrun.
  match goal with
  | |- context [Twc.update_from_client ?n ?p ?c ?v ?f ?se ?te ?t ?ts ?s] =>
      pose proof (Hret := update_from_client_returns n p c v f se te t ts s);
      destruct (Twc.update_from_client n p c v f se te t ts s)
  end; [reflexivity|].
  cbn [has_raised] in *. apply Hret.
  destruct (timestamp r) as [[| |]|]; try exact I; discriminate.
Qed.


(** *** The loop over readings *)

Lemma meter_loop_app (clock : nat -> Time) (rs : list Reading) (r : Reading) :
  forall (i : nat) (cp : ChargePoint),
    meter_loop clock i (rs ++ [r]) cp
    = match meter_loop clock i rs cp with
      | Returned cp' => handle_reading (clock (i + List.length rs)%nat) r cp'
      | Raised cp' => Raised cp'
      end.
Proof.
  induction rs as [|r0 rs IH]; intros i cp; cbn [app meter_loop List.length].
  - rewrite Nat.add_0_r. destruct (handle_reading (clock i) r cp); reflexivity.
  - destruct (handle_reading (clock i) r0 cp); [|reflexivity].
    rewrite IH. rewrite Nat.add_succ_comm. reflexivity.
Qed.

(** Readings that pass leave a session record that differs from the
    initial one in its energy at most. *)
Lemma meter_loop_passes (clock : nat -> Time) (rs : list Reading) :
  forall (i : nat) (cp : ChargePoint) (last : ChargingSession.t),
    forallb passes rs = true ->
    last_session cp = Some last ->
    exists (cp' : ChargePoint) (e : float),
      meter_loop clock i rs cp = Returned cp'
      /\ last_session cp' = Some (ChargingSession.with_session_energy e last).
Proof.
  induction rs as [|r rs IH]; intros i cp last Hall Hlast.
  - exists cp, (ChargingSession.session_energy last).
    split; [reflexivity|]. rewrite Hlast. destruct last; reflexivity.
  - cbn [forallb] in Hall. apply andb_true_iff in Hall as [Hr Hrest].
    cbn [meter_loop].
    pose proof (handle_reading_returns (clock i) r cp Hr) as Hret.
    assert (Hp : values_parse r = true).
    { unfold passes in Hr. apply andb_true_iff in Hr. tauto. }
    pose proof (handle_reading_session (clock i) r cp Hp) as Hs.
    rewrite Hlast in Hs.
    destruct (handle_reading (clock i) r cp) as [cp1|cp1];
      [|discriminate]. cbn [state_of] in Hs.
    destruct (reports_interval r).
    + exact (IH (S i) cp1 last Hrest Hs).
    + destruct (IH (S i) cp1 _ Hrest Hs) as (cp' & e & Hrun & Hl).
      exists cp', e. split; [exact Hrun|]. rewrite Hl.
      destruct last; reflexivity.
Qed.

End Ledger.

Section Sessions.

Import Server.

(** *** Energy derived from the cumulative counter *)

(** [max(0, x)] is never below zero (also for NaN and infinities). *)
Lemma py_max0_not_negative (x : float) : gt 0 (py_max0 x) = false.
Proof.
  unfold py_max0, gt. destruct (PrimFloat.ltb 0 x) eqn:E; [|reflexivity].
  rewrite ltb_spec in *. unfold SFltb in *.
  change (Prim2SF 0) with (S754_zero false) in *.
  destruct (Prim2SF x) as [sg|sg| |sg m e]; try destruct sg;
    cbn in *; congruence.
Qed.

(** C6, as amended: a meter-values event whose last reading carries no
    interval energy and only values that parse, received while a session
    record exists, the earlier readings being handled without exception,
    leaves in the session record, and in the snapshot, the energy
    [max(0, total_energy_wh - total_energy_at_start)].  It is never
    negative; from a start of 100 a report of 135 gives 35 and a report
    of 90 gives 0. *)
Theorem derived_session_energy :
  forall (clock : nat -> Time) (connector_id : Z) (rs : list Reading)
    (r : Reading) (cp : ChargePoint) (last : ChargingSession.t),
    last_session cp = Some last ->
    forallb passes rs = true ->
    values_parse r = true ->
    reports_interval r = false ->
    let cp' := on_meter_values clock connector_id (rs ++ [r]) cp in
    let derived :=
      py_max0
        (PrimFloat.sub (reported_total r)
           (ChargingSession.total_energy_start last)) in
    last_session cp' = Some (ChargingSession.with_session_energy derived last)
    /\ Twc.session_energy_wh (Twc.vitals (twc cp')) = derived
    /\ gt 0 derived = false
    /\ (ChargingSession.total_energy_start last = 100%float ->
        reported_total r = 135%float -> derived = 35%float)
    /\ (ChargingSession.total_energy_start last = 100%float ->
        reported_total r = 90%float -> derived = 0%float).
Proof.
  intros clock connector_id rs r cp last Hlast Hrs Hp Hni cp' derived.
  assert (Hrecord :
            last_session cp'
            = Some (ChargingSession.with_session_energy derived last)).
  { subst cp'. unfold on_meter_values. rewrite meter_loop_app.
    destruct (meter_loop_passes clock rs 0%nat cp last Hrs Hlast)
      as (cp1 & e & Hrun & Hl).
    rewrite Hrun, (handle_reading_session _ r cp1 Hp), Hl, Hni.
    subst derived. destruct last; reflexivity. }
  split; [exact Hrecord|]. split; [|split; [|split]].
  - subst cp'. unfold on_meter_values in *. rewrite meter_loop_app in *.
    destruct (meter_loop_passes clock rs 0%nat cp last Hrs Hlast)
      as (cp1 & e & Hrun & _).
    rewrite Hrun in *.
    rewrite (handle_reading_snapshot _ r cp1 Hp).
    unfold remembered_energy. rewrite Hrecord. reflexivity.
  - apply py_max0_not_negative.
  - intros Hstart Htotal. subst derived. rewrite Hstart, Htotal. reflexivity.
  - intros Hstart Htotal. subst derived. rewrite Hstart, Htotal. reflexivity.
Qed.

Lemma derived_session_energy_witness :
  remembered_energy
    (on_meter_values (fun _ => 6000000) 1 [register_only 135] started_at_100)
  = Some 35%float
  /\ remembered_energy
       (on_meter_values (fun _ => 6000000) 1
          [register_only 100; register_only 90] started_at_100)
     = Some 0%float.
Proof.
  split.
  - destruct (derived_session_energy (fun _ => 6000000) 1 []
                (register_only 135) started_at_100
                (ChargingSession.Build "TEST" 5 0 5000000 100 0)
                eq_refl eq_refl eq_refl eq_refl) as (H & _).
    unfold remembered_energy. cbn [app] in H. rewrite H. reflexivity.
  - destruct (derived_session_energy (fun _ => 6000000) 1 [register_only 100]
                (register_only 90) started_at_100
                (ChargingSession.Build "TEST" 5 0 5000000 100 0)
                eq_refl eq_refl eq_refl eq_refl) as (H & _).
    unfold remembered_energy. cbn [app] in H. rewrite H. reflexivity.
Defined.

(** C6 as stated fails: with a session active that started at 100, a
    reading without interval energy that reports 135 next to a value [float]
    rejects stores nothing: the exception ends the handler before the
    derivation, and the session energy stays 0 instead of 35. *)
Lemma unparsable_value_blocks_derivation :
  transaction_id started_at_100 = Some 5
  /\ option_map ChargingSession.total_energy_start (last_session started_at_100)
     = Some 100%float
  /\ reports_interval reading_135_unparsable = false
  /\ reported_total reading_135_unparsable = 135%float
  /\ py_max0 (PrimFloat.sub 135 100) = 35%float
  /\ remembered_energy
       (on_meter_values (fun _ => 6000000) 1 [reading_135_unparsable]
          started_at_100)
     = Some 0%float
  /\ 0%float <> 35%float.
Proof.
  repeat (split; [reflexivity|]).
  intros H. apply (f_equal (fun x => PrimFloat.ltb 0 x)) in H.
  vm_compute in H. discriminate.
Qed.

(** *** Explicit interval energy *)

(** A reading that carries an interval energy leaves the session record
    as it was: the reported value reaches neither the record nor the
    snapshot, which is written from the record. *)
Lemma interval_report_is_dropped (clock : nat -> Time) (connector_id : Z)
    (r : Reading) (cp : ChargePoint) :
  values_parse r = true ->
  reports_interval r = true ->
  let cp' := on_meter_values clock connector_id [r] cp in
  last_session cp' = last_session cp
  /\ Twc.session_energy_wh (Twc.vitals (twc cp'))
     = match remembered_energy cp with Some e => e | None => 0%float end.
Proof.
  intros Hp Hi cp'. subst cp'. unfold on_meter_values. cbn [meter_loop].
  assert (Hs :
            last_session (state_of (handle_reading (clock 0%nat) r cp))
            = last_session cp).
  { rewrite (handle_reading_session _ r cp Hp), Hi.
    destruct (last_session cp); reflexivity. }
  pose proof (handle_reading_snapshot (clock 0%nat) r cp Hp) as Hv.
  unfold remembered_energy in *. rewrite Hs in Hv.
  destruct (handle_reading (clock 0%nat) r cp); cbn [state_of] in *; auto.
Qed.

Lemma zero_is_not_fifty : 0%float <> 50%float.
Proof.
  intros H. apply (f_equal (fun x => PrimFloat.ltb 0 x)) in H.
  vm_compute in H. discriminate.
Qed.

(** C1 (the code departs from it): after start-transaction and a
    reading with [total_energy_wh = 50] and an explicit interval energy of
    50, the session record and the snapshot both hold a session energy of
    0, not the reported 50. *)
Theorem explicit_interval_not_stored :
  remembered_energy metered = Some 0%float
  /\ Twc.session_energy_wh (Twc.vitals (twc metered)) = 0%float
  /\ Twc.total_energy_wh (Twc.vitals (twc metered)) = 50%float
  /\ 0%float <> 50%float.
Proof.
  split; [reflexivity|]. split; [reflexivity|]. split; [reflexivity|].
  exact zero_is_not_fifty.
Qed.

(** *** Session continuity *)

(** The energy a new session starts with: that of the remembered
    session when the [id_tag] is the same, zero otherwise. *)
Lemma on_start_transaction_energy (now : Time) (connector_id : Z)
    (id_tag : string) (meter_start : Z) (timestamp : IsoParse)
    (cp : ChargePoint) :
  let cp' :=
    fst (on_start_transaction now connector_id id_tag meter_start timestamp cp) in
  (forall last : ChargingSession.t,
      last_session cp = Some last ->
      ChargingSession.id_tag last = id_tag ->
      remembered_energy cp' = Some (ChargingSession.session_energy last))
  /\ (forall last : ChargingSession.t,
         last_session cp = Some last ->
         ChargingSession.id_tag last <> id_tag ->
         remembered_energy cp' = Some 0%float)
  /\ (last_session cp = None -> remembered_energy cp' = Some 0%float)
  /\ option_map ChargingSession.id_tag (last_session cp') = Some id_tag.
Proof.
  cbn. unfold remembered_energy, on_start_transaction.
  cbn [fst last_session with_last_session with_transaction_id option_map
       ChargingSession.session_energy ChargingSession.id_tag].
  repeat split.
  - intros last -> <-. now rewrite String.eqb_refl.
  - intros last -> Hne.
    destruct (String.eqb_spec (ChargingSession.id_tag last) id_tag);
      [contradiction|reflexivity].
  - intros ->. reflexivity.
Qed.

(** C2 (the code departs from its scenario): start-transaction with
    ["TEST"], a reading with [total_energy_wh = 50] and explicit interval
    50, stop-transaction, start-transaction with ["TEST"] again: the new
    session starts at 0, the energy the first session was left with, not
    at 50. *)
Theorem restarted_session_starts_at_zero :
  remembered_energy restarted = Some 0%float
  /\ remembered_energy restarted = remembered_energy metered
  /\ option_map ChargingSession.id_tag (last_session restarted) = Some "TEST"
  /\ 0%float <> 50%float.
Proof.
  split; [reflexivity|]. split; [reflexivity|]. split; [reflexivity|].
  exact zero_is_not_fifty.
Qed.

(** *** Stop-transaction *)

(** C4, as the code has it: stop-transaction clears the active
    transaction whatever [transaction_id] it names, and leaves the
    remembered session and the simulator as they were. *)
Theorem on_stop_transaction_clears_and_retains :
  forall (meter_stop : Z) (timestamp : IsoParse) (tid : Z) (cp : ChargePoint),
    transaction_id (on_stop_transaction meter_stop timestamp tid cp) = None
    /\ last_session (on_stop_transaction meter_stop timestamp tid cp)
       = last_session cp
    /\ twc (on_stop_transaction meter_stop timestamp tid cp) = twc cp.
Proof. intros. repeat split. Qed.

(** C4 as stated fails: a stop-transaction naming transaction 7 while
    transaction 5 is active is not a no-op, it clears the active
    transaction. *)
Lemma stop_with_other_id_is_not_noop :
  transaction_id started = Some 5
  /\ option_map ChargingSession.transaction_id (last_session started) = Some 5
  /\ transaction_id (on_stop_transaction 0 (IsoAware 7000000) 7 started) = None
  /\ on_stop_transaction 0 (IsoAware 7000000) 7 started <> started.
Proof.
  repeat split. intros H.
  apply (f_equal transaction_id) in H. discriminate.
Qed.

End Sessions.

Section Suspended.

Import Server.

(** *** Session time after a suspended status *)





End Suspended.

(** ** Whole seconds through binary64 *)

Section Seconds.

Lemma digits2_pos_spec (p : positive) :
  2 ^ (Zpos (digits2_pos p) - 1) <= Zpos p < 2 ^ Zpos (digits2_pos p).
Proof.
  induction p as [p IH|p IH|]; cbn [digits2_pos].
  - rewrite Pos2Z.inj_succ.
    replace (Z.succ (Z.pos (digits2_pos p)) - 1) with (Z.succ (Z.pos (digits2_pos p) - 1)) by lia.
    rewrite !Z.pow_succ_r by lia. lia.
  - rewrite Pos2Z.inj_succ.
    replace (Z.succ (Z.pos (digits2_pos p)) - 1) with (Z.succ (Z.pos (digits2_pos p) - 1)) by lia.
    rewrite !Z.pow_succ_r by lia. lia.
  - cbn. lia.
Qed.

Lemma Zdigits2_unique (m d : Z) :
  0 < d -> 2 ^ (d - 1) <= m < 2 ^ d -> Zdigits2 m = d.
Proof.
  intros Hd [Hlo Hhi].
  assert (0 < m) by (pose proof (Z.pow_pos_nonneg 2 (d - 1)); lia).
  destruct m as [|p|p]; try lia. cbn [Zdigits2].
  pose proof (digits2_pos_spec p) as [Hlo' Hhi'].
  set (k := Zpos (digits2_pos p)) in *.
  assert (Hk : 0 < k) by (subst k; lia).
  destruct (Z.lt_trichotomy k d) as [Hlt|[Heq|Hgt]]; [|exact Heq|].
  - assert (2 ^ k <= 2 ^ (d - 1)) by (apply Z.pow_le_mono_r; lia). lia.
  - assert (2 ^ d <= 2 ^ (k - 1)) by (apply Z.pow_le_mono_r; lia). lia.
Qed.

(** Rounding a 53-bit quotient, then a 54-bit one: the mantissa kept and
    whether it was rounded up. *)
Lemma round_aux_53 (Q ex : Z) (loc : location) :
  2 ^ 52 <= Q < 2 ^ 53 -> -1021 <= ex <= 900 ->
  exists (m : positive) (e : Z),
    binary_round_aux prec emax false Q ex loc = S754_finite false m e
    /\ 2 ^ 52 <= Zpos m < 2 ^ 53
    /\ ((e = ex /\ (Zpos m = Q \/ (Zpos m = Q + 1 /\ (loc = loc_Inexact Eq \/ loc = loc_Inexact Gt))))
        \/ (e = ex + 1 /\ Q + 1 = 2 ^ 53 /\ Zpos m = 2 ^ 52
            /\ (loc = loc_Inexact Eq \/ loc = loc_Inexact Gt))).
Proof.
  intros HQ Hex.
  unfold binary_round_aux, shr_fexp.
  rewrite (Zdigits2_unique Q 53) by (lia || exact HQ).
  unfold fexp, emin, prec, emax.
  replace (Z.max (53 + ex - 53) (3 - 1024 - 53) - ex) with 0 by lia.
  cbn [shr].
  assert (Hm : shr_m (shr_record_of_loc Q loc) = Q) by (destruct loc as [|[]]; reflexivity).
  assert (Hl : loc_of_shr_record (shr_record_of_loc Q loc) = loc) by (destruct loc as [|[]]; reflexivity).
  rewrite Hm, Hl.
  set (m0 := round_nearest_even Q loc).
  assert (Hm0 : m0 = Q \/ (m0 = Q + 1 /\ (loc = loc_Inexact Eq \/ loc = loc_Inexact Gt))).
  { subst m0. destruct loc as [|[]]; cbn; auto. destruct (Z.even Q); auto. }
  destruct (Z.eq_dec m0 (2 ^ 53)) as [Htop|Hntop].
  - rewrite Htop.
    change (shr (shr_record_of_loc (2 ^ 53) loc_Exact) ex
              (Z.max (Zdigits2 (2 ^ 53) + ex - 53) (3 - 1024 - 53) - ex))
      with (shr (shr_record_of_loc (2 ^ 53) loc_Exact) ex (Z.max (54 + ex - 53) (3 - 1024 - 53) - ex)).
    replace (Z.max (54 + ex - 53) (3 - 1024 - 53) - ex) with 1 by lia.
    cbn [shr iter_pos shr_record_of_loc shr_1 shr_m]. 
    replace (ex + 1 <=? 1024 - 53) with true by (symmetry; apply Z.leb_le; lia).
    eexists _, _. split; [reflexivity|]. split; [cbn; lia|].
    right. repeat split; try lia. destruct Hm0 as [H|[H H']]; [lia|exact H'].
  - assert (Hr : 2 ^ 52 <= m0 < 2 ^ 53) by lia.
    rewrite (Zdigits2_unique m0 53) by (lia || exact Hr).
    replace (Z.max (53 + ex - 53) (3 - 1024 - 53) - ex) with 0 by lia.
    cbn [shr shr_record_of_loc shr_m].
    destruct m0 as [|pm|pm] eqn:Em; try lia.
    replace (ex <=? 1024 - 53) with true by (symmetry; apply Z.leb_le; lia).
    exists pm, ex. split; [reflexivity|]. split; [exact Hr|]. left. split; [reflexivity|].
    exact Hm0.
Qed.

Lemma round_aux_54 (Q ex : Z) (loc : location) :
  2 ^ 53 <= Q < 2 ^ 54 -> -1021 <= ex <= 900 ->
  exists (m : positive) (e h : Z),
    binary_round_aux prec emax false Q ex loc = S754_finite false m e
    /\ 2 ^ 52 <= Zpos m < 2 ^ 53
    /\ (Q = 2 * h \/ Q = 2 * h + 1)
    /\ ((e = ex + 1 /\ (Zpos m = h \/ (Zpos m = h + 1 /\ Q = 2 * h + 1)))
        \/ (e = ex + 2 /\ h + 1 = 2 ^ 53 /\ Zpos m = 2 ^ 52 /\ Q = 2 * h + 1)).
Proof.
  intros HQ Hex.
  unfold binary_round_aux, shr_fexp.
  rewrite (Zdigits2_unique Q 54) by (lia || exact HQ).
  unfold fexp, emin, prec, emax.
  replace (Z.max (54 + ex - 53) (3 - 1024 - 53) - ex) with 1 by lia.
  cbn [shr iter_pos].
  assert (Hs : exists h r s,
             shr_1 (shr_record_of_loc Q loc) = Build_shr_record h r s
             /\ (Q = 2 * h + (if r then 1 else 0))).
  { destruct Q as [|[q|q|]|q]; try lia; destruct loc as [|[]]; cbn;
      eexists _, _, _; (split; [reflexivity|]); cbn; lia. }
  destruct Hs as (h & r & s & -> & HQh).
  cbn [shr_m].
  set (m0 := round_nearest_even h (loc_of_shr_record {| shr_m := h; shr_r := r; shr_s := s |})).
  assert (Hm0 : m0 = h \/ (m0 = h + 1 /\ r = true)).
  { subst m0. destruct r, s; cbn; auto. destruct (Z.even h); auto. }
  assert (Hh : 2 ^ 52 <= h < 2 ^ 53) by (destruct r; lia).
  destruct (Z.eq_dec m0 (2 ^ 53)) as [Htop|Hntop].
  - rewrite Htop.
    change (Zdigits2 (2 ^ 53)) with 54.
    replace (Z.max (54 + (ex + 1) - 53) (3 - 1024 - 53) - (ex + 1)) with 1 by lia.
    cbn [shr iter_pos shr_record_of_loc shr_1 shr_m].
    replace (ex + 1 + 1 <=? 1024 - 53) with true by (symmetry; apply Z.leb_le; lia).
    eexists _, _, h. split; [reflexivity|]. split; [cbn; lia|].
    split; [destruct r; lia|].
    right. destruct Hm0 as [H|[H H']]; [lia|]. subst r.
    repeat split; try lia.
  - assert (Hr : 2 ^ 52 <= m0 < 2 ^ 53) by lia.
    rewrite (Zdigits2_unique m0 53) by (lia || exact Hr).
    replace (Z.max (53 + (ex + 1) - 53) (3 - 1024 - 53) - (ex + 1)) with 0 by lia.
    cbn [shr shr_record_of_loc shr_m].
    destruct m0 as [|pm|pm] eqn:Em; try lia.
    replace (ex + 1 <=? 1024 - 53) with true by (symmetry; apply Z.leb_le; lia).
    exists pm, (ex + 1), h. split; [reflexivity|]. split; [exact Hr|].
    split; [destruct r; lia|].
    left. split; [reflexivity|].
    destruct Hm0 as [H|[H H']]; [left; exact H|right; subst r; lia].
Qed.

Lemma new_location_half (R : Z) (c : comparison) :
  new_location 1000000 R = loc_Inexact c ->
  (c = Eq -> 2 * R = 1000000) /\ (c = Gt -> 2 * R > 1000000).
Proof.
  change (new_location 1000000 R) with (new_location_even 1000000 R).
  unfold new_location_even.
  destruct (R =? 0); [discriminate|].
  change (Z.mul (Zpos 2) R) with (2 * R).
  destruct (Z.compare_spec (2 * R) 1000000) as [H|H|H]; intros E;
    injection E as <-; split; intros Hc; try discriminate; lia.
Qed.

Lemma true_div_core (p : positive) :
  let k := Zpos (digits2_pos p) in
  k <= 54 ->
  exists Q R : Z,
    SFdiv_core_binary prec emax (Zpos p) 0 1000000 0
    = (Q, k - 73, new_location 1000000 R)
    /\ Zpos p * 2 ^ (73 - k) = 1000000 * Q + R
    /\ 0 <= R < 1000000.
Proof.
  intros k Hk. unfold SFdiv_core_binary.
  change (Zdigits2 (Zpos p)) with k.
  change (Zdigits2 1000000) with 20.
  unfold fexp, emin, prec, emax.
  assert (Hk0 : 0 < k) by (subst k; lia).
  replace (Z.min (Z.max (k + 0 - (20 + 0) - 53) (3 - 1024 - 53)) (0 - 0))
    with (k - 73) by lia.
  replace (0 - 0 - (k - 73)) with (73 - k) by lia.
  destruct (73 - k) as [|s|s] eqn:Es; try lia.
  rewrite Z.shiftl_mul_pow2 by lia.
  pose proof (Z_div_mod (Zpos p * 2 ^ Zpos s) 1000000 eq_refl) as Hdm.
  destruct (Z.div_eucl (Zpos p * 2 ^ Zpos s) 1000000) as [Q R].
  exists Q, R. split; [reflexivity|]. exact Hdm.
Qed.

(** Every concrete power of two in the goal and the hypotheses is
    computed. *)
Ltac compute_pows :=
  repeat match goal with
    | |- context [2 ^ ?x] =>
        let v := eval vm_compute in (2 ^ x) in change (2 ^ x) with v
    | H : context [2 ^ ?x] |- _ =>
        let v := eval vm_compute in (2 ^ x) in change (2 ^ x) with v in H
    end.

Lemma binary_round_aux_sign (sx : bool) (Q ex : Z) (loc : location)
    (m : positive) (e : Z) :
  binary_round_aux prec emax false Q ex loc = S754_finite false m e ->
  binary_round_aux prec emax sx Q ex loc = S754_finite sx m e.
Proof.
  unfold binary_round_aux.
  destruct (shr_fexp prec emax Q ex loc) as [mrs' e'].
  destruct (shr_fexp prec emax _ e' loc_Exact) as [mrs'' e''].
  destruct (shr_m mrs'') as [|pm|pm]; try discriminate.
  destruct (e'' <=? emax - prec); [|discriminate].
  intros H. injection H as <- <-. reflexivity.
Qed.

(** The binary64 quotient of a positive number of microseconds below
    2^34 seconds by [10**6]: a 53-bit mantissa and a negative exponent whose
    integer part is the exact quotient. *)
Lemma true_div_seconds (p : positive) :
  Zpos p < 2 ^ 34 * 1000000 ->
  exists (m : positive) (e : Z),
    (forall sx : bool,
        SFdiv prec emax (S754_finite sx p 0) (S754_finite false 1000000 0)
        = S754_finite sx m e)
    /\ valid_binary (S754_finite false m e) = true
    /\ e < 0
    /\ Zpos m / 2 ^ (- e) = Zpos p / 1000000.
Proof.
  intros Hp.
  pose proof (digits2_pos_spec p) as Hd.
  set (k := Zpos (digits2_pos p)) in *.
  assert (Hk0 : 1 <= k) by (subst k; lia).
  assert (Hk : k <= 54).
  { destruct (Z_le_gt_dec k 54) as [H|H]; [exact H|].
    assert (2 ^ 54 <= 2 ^ (k - 1)) by (apply Z.pow_le_mono_r; lia).
    compute_pows. lia. }
  destruct (true_div_core p Hk) as (Q & R & Hcore & Hdiv & HR).
  fold k in Hcore, Hdiv. clearbody k.
  (* the quotient has 53 or 54 bits *)
  assert (HT : 2 ^ (k - 1) * 2 ^ (73 - k) = 2 ^ 72).
  { rewrite <- Z.pow_add_r by lia. f_equal. lia. }
  assert (HT' : 2 ^ k = 2 * 2 ^ (k - 1)).
  { replace k with (Z.succ (k - 1)) at 1 by lia. apply Z.pow_succ_r. lia. }
  assert (HTpos : 0 < 2 ^ (73 - k)) by (apply Z.pow_pos_nonneg; lia).
  set (T := 2 ^ (73 - k)) in *.
  set (A := 2 ^ (k - 1)) in *.
  assert (HQ : 2 ^ 52 <= Q < 2 ^ 54).
  { assert (2 ^ 72 <= Zpos p * T) by nia.
    assert (Zpos p * T < 2 ^ 73).
    { change (2 ^ 73) with (2 * 2 ^ 72). nia. }
    compute_pows. lia. }
  unfold SFdiv.
  rewrite Hcore.
  assert (Hex : -1021 <= k - 73 <= 900) by lia.
  assert (Hloc : forall c, new_location 1000000 R = loc_Inexact c ->
                           (c = Eq -> 2 * R = 1000000) /\ (c = Gt -> 2 * R > 1000000))
    by (intros c; apply new_location_half).
  assert (Hup : new_location 1000000 R = loc_Inexact Eq
                \/ new_location 1000000 R = loc_Inexact Gt -> 2 * R >= 1000000).
  { intros [H|H]; destruct (Hloc _ H) as [H1 H2];
      [specialize (H1 eq_refl) | specialize (H2 eq_refl)]; lia. }
  clear Hloc.
  assert (HkIn : In k (map Z.of_nat (seq 1 54))).
  { vm_compute. lia. }
  vm_compute in HkIn.
  assert (Hres : exists (m : positive) (e : Z),
             binary_round_aux prec emax false Q (k - 73) (new_location 1000000 R)
             = S754_finite false m e
             /\ 2 ^ 52 <= Zpos m < 2 ^ 53
             /\ k - 73 <= e <= k - 71
             /\ Zpos m / 2 ^ (- e) = Zpos p / 1000000).
  { destruct (Z_lt_ge_dec Q (2 ^ 53)) as [Hlt|Hge].
    - destruct (round_aux_53 Q (k - 73) (new_location 1000000 R)
                  (conj (proj1 HQ) Hlt) Hex) as (m & e & Hround & Hm & Hcase).
      exists m, e. split; [exact Hround|]. split; [exact Hm|].
      split; [destruct Hcase as [[-> _]|[-> _]]; lia|].
      clear Hround Hcore.
      subst T A.
      (repeat (destruct HkIn as [<-|HkIn]; [|]); [..|contradiction];
        destruct Hcase as [[-> [Hcm|[Hcm Hl]]]|[-> [Htop [Hcm Hl]]]];
        try (apply Hup in Hl); clear Hup;
        match goal with |- _ / 2 ^ ?x = _ =>
          let v := eval vm_compute in (2 ^ x) in change (2 ^ x) with v end;
        compute_pows;
        Z.div_mod_to_equations; lia).
    - destruct (round_aux_54 Q (k - 73) (new_location 1000000 R)
                  (conj (Z.ge_le _ _ Hge) (proj2 HQ)) Hex)
        as (m & e & h & Hround & Hm & Hpar & Hcase).
      exists m, e. split; [exact Hround|]. split; [exact Hm|].
      split; [destruct Hcase as [[-> _]|[-> _]]; lia|].
      clear Hround Hcore Hup.
      subst T A.
      (repeat (destruct HkIn as [<-|HkIn]; [|]); [..|contradiction];
        destruct Hcase as [[-> [Hcm|[Hcm Hodd]]]|[-> [Htop [Hcm Hodd]]]];
        match goal with |- _ / 2 ^ ?x = _ =>
          let v := eval vm_compute in (2 ^ x) in change (2 ^ x) with v end;
        compute_pows;
        Z.div_mod_to_equations; lia). }
  destruct Hres as (m & e & Hround & Hm & He & Hval).
  exists m, e. split; [|split; [|split; [lia | exact Hval]]].
  - intros sx. cbv beta iota zeta. rewrite Bool.xorb_false_r.
    apply binary_round_aux_sign. exact Hround.
  - unfold valid_binary, bounded, canonical_mantissa.
    change (Zpos (digits2_pos m)) with (Zdigits2 (Zpos m)).
    rewrite (Zdigits2_unique (Zpos m) 53) by (lia || exact Hm).
    unfold fexp, emin, prec, emax.
    apply andb_true_intro. split; [apply Z.eqb_eq | apply Z.leb_le]; lia.
Qed.

(** Within 2^34 seconds of zero, [int] of the binary64 quotient of a
    number of microseconds by [10**6] is the exact quotient truncated
    toward zero. *)
Theorem whole_seconds_exact (delta : Z) :
  - (2 ^ 34 * 1000000) < delta < 2 ^ 34 * 1000000 ->
  py_int (py_true_div delta 1000000) = whole_seconds delta.
Proof.
  intros Hd. unfold whole_seconds, py_int, py_true_div.
  destruct delta as [|p|p]; [reflexivity| |].
  - destruct (true_div_seconds p (proj2 Hd)) as (m & e & Hdiv & Hvalid & He & Hval).
    cbn [SF_of_Z]. rewrite (Hdiv false), (Prim2SF_SF2Prim _ Hvalid).
    replace (0 <=? e) with false by (symmetry; apply Z.leb_gt; lia).
    rewrite Z.shiftr_div_pow2 by lia. rewrite Hval.
    symmetry. apply Z.quot_div_nonneg; lia.
  - assert (Hp : Zpos p < 2 ^ 34 * 1000000) by lia.
    destruct (true_div_seconds p Hp) as (m & e & Hdiv & Hvalid & He & Hval).
    cbn [SF_of_Z]. rewrite (Hdiv true).
    assert (Hvalid' : valid_binary (S754_finite true m e) = true) by exact Hvalid.
    rewrite (Prim2SF_SF2Prim _ Hvalid').
    replace (0 <=? e) with false by (symmetry; apply Z.leb_gt; lia).
    rewrite Z.shiftr_div_pow2 by lia. rewrite Hval.
    change (Zneg p) with (- Zpos p).
    rewrite Z.quot_opp_l by lia. f_equal.
    symmetry. apply Z.quot_div_nonneg; lia.
Qed.

(** X25: Within 2^34 seconds of zero, what the code computes for
    [int(delta.total_seconds())] and [int(dt.timestamp())], through the
    binary64 quotient of the microseconds by [10**6], is the exact quotient
    truncated toward zero that [whole_seconds] takes. *)
Theorem binary64_seconds_are_whole_seconds :
  forall delta : Z,
    - (2 ^ 34 * 1000000) < delta < 2 ^ 34 * 1000000 ->
    py_int (py_timestamp delta) = whole_seconds delta.
Proof.
  intros delta Hd. unfold py_timestamp. apply whole_seconds_exact. exact Hd.
Qed.

Lemma binary64_seconds_are_whole_seconds_witness :
  py_int (py_timestamp 17179869183999999) = 17179869183
  /\ py_int (py_timestamp (-1999999)) = -1.
Proof.
  split.
  - rewrite (binary64_seconds_are_whole_seconds 17179869183999999) by (cbn; lia).
    reflexivity.
  - rewrite (binary64_seconds_are_whole_seconds (-1999999)) by (cbn; lia).
    reflexivity.
Defined.

End Seconds.

(** * Further properties of the code *)

(** ** Status notifications ([ChargePoint.on_status_notification]) *)

Section Status.

Import Server.

(** Exposes the constructors of a charge point and of its simulator. *)
Ltac open_point cp :=
  destruct cp as [[[cc vc ? ? ? ? ? ? ? ? ? ? ? ? ? ? ? ? ? ? ? ? ? ? ? es ?]
                     ? ? cst ? ?] ? ?].

(** X1: Status [Charging] without error code puts the simulator in state 3
    with the contactor closed, the vehicle connected and the charge-start
    time set, whatever its state was (error, unknown, vehicle absent). *)
Theorem status_charging_starts_charging :
  forall (now_enable now_connect : Time) (connector_id : Z) (cp : ChargePoint),
    let t :=
      twc (on_status_notification now_enable now_connect connector_id
             "NoError" "Charging" cp) in
    Twc.evse_state (Twc.vitals t) = 3
    /\ Twc.contactor_closed (Twc.vitals t) = true
    /\ Twc.vehicle_connected (Twc.vitals t) = true
    /\ Twc.charging t = true
    /\ Twc.charging_start_time t
       = Some match Twc.charging_start_time (twc cp) with
              | Some started => started
              | None =>
                  if Twc.vehicle_connected (Twc.vitals (twc cp))
                  then now_enable else now_connect
              end.
Proof.
  intros now_enable now_connect connector_id cp. open_point cp.
  destruct vc, cst; cbn; repeat split.
Qed.

(** X2: Status [SuspendedEVSE] or [SuspendedEV] without error code leaves the
    simulator ready (state 2) with the contactor open, the vehicle connected
    and the charge-start time set, whatever its state was. *)
Theorem status_suspended_is_ready_with_timer :
  forall (now_enable now_connect : Time) (connector_id : Z) (status : string)
    (cp : ChargePoint),
    status = "SuspendedEVSE" \/ status = "SuspendedEV" ->
    let t :=
      twc (on_status_notification now_enable now_connect connector_id
             "NoError" status cp) in
    Twc.evse_state (Twc.vitals t) = 2
    /\ Twc.contactor_closed (Twc.vitals t) = false
    /\ Twc.vehicle_connected (Twc.vitals t) = true
    /\ Twc.charging_start_time t
       = Some match Twc.charging_start_time (twc cp) with
              | Some started => started
              | None =>
                  if Twc.vehicle_connected (Twc.vitals (twc cp))
                  then now_enable else now_connect
              end.
Proof.
  intros now_enable now_connect connector_id status cp Hstatus.
  open_point cp.
  destruct Hstatus as [-> | ->]; destruct vc, cst; cbn; repeat split.
Qed.

Lemma status_suspended_is_ready_with_timer_witness :
  Twc.evse_state
    (Twc.vitals
       (twc (on_status_notification 3 4 1 "NoError" "SuspendedEVSE" connected)))
  = 2
  /\ Twc.charging_start_time
       (twc (on_status_notification 3 4 1 "NoError" "SuspendedEVSE" connected))
     = Some 4.
Proof.
  destruct (status_suspended_is_ready_with_timer 3 4 1 "SuspendedEVSE"
              connected (or_introl eq_refl)) as (Hs & _ & _ & Ht).
  split; [exact Hs | exact Ht].
Defined.

(** X3: Any other status without error code ([Available], [Preparing],
    [Finishing], ...) leaves the simulator ready (state 2) with the contactor
    open, no vehicle and no charge-start time, whatever its state was. *)
Theorem status_other_is_ready_unplugged :
  forall (now_enable now_connect : Time) (connector_id : Z) (status : string)
    (cp : ChargePoint),
    status <> "Charging" -> status <> "SuspendedEVSE" ->
    status <> "SuspendedEV" ->
    let t :=
      twc (on_status_notification now_enable now_connect connector_id
             "NoError" status cp) in
    Twc.evse_state (Twc.vitals t) = 2
    /\ Twc.contactor_closed (Twc.vitals t) = false
    /\ Twc.vehicle_connected (Twc.vitals t) = false
    /\ Twc.charging_start_time t = None.
Proof.
  intros now_enable now_connect connector_id status cp H1 H2 H3.
  apply String.eqb_neq in H1, H2, H3.
  open_point cp. unfold on_status_notification.
  rewrite H1, H2, H3.
  destruct vc, cst; cbn; repeat split.
Qed.

Lemma status_other_is_ready_unplugged_witness :
  Twc.evse_state
    (Twc.vitals
       (twc (on_status_notification 3 4 1 "NoError" "Available" charging_point)))
  = 2
  /\ Twc.vehicle_connected
       (Twc.vitals
          (twc (on_status_notification 3 4 1 "NoError" "Available"
                  charging_point)))
     = false.
Proof.
  assert (H1 : "Available" <> "Charging") by discriminate.
  assert (H2 : "Available" <> "SuspendedEVSE") by discriminate.
  assert (H3 : "Available" <> "SuspendedEV") by discriminate.
  destruct (status_other_is_ready_unplugged 3 4 1 "Available" charging_point
              H1 H2 H3) as (Hs & _ & Hv & _).
  split; [exact Hs | exact Hv].
Defined.

(** X4: A status with an error code puts the simulator in state 4 with the
    contactor open and no charge-start time, whatever the status string;
    the vehicle flag is kept, and [set_enabled(True)] is refused
    afterwards. *)
Theorem status_with_error_code_is_error :
  forall (now_enable now_connect now : Time) (connector_id : Z)
    (error_code status : string) (cp : ChargePoint),
    error_code <> "NoError" ->
    let t :=
      twc (on_status_notification now_enable now_connect connector_id
             error_code status cp) in
    Twc.evse_state (Twc.vitals t) = 4
    /\ Twc.contactor_closed (Twc.vitals t) = false
    /\ Twc.charging_start_time t = None
    /\ Twc.vehicle_connected (Twc.vitals t)
       = Twc.vehicle_connected (Twc.vitals (twc cp))
    /\ Twc.set_enabled true now t = (t, false).
Proof.
  intros now_enable now_connect now connector_id error_code status cp Herr.
  apply String.eqb_neq in Herr.
  open_point cp. unfold on_status_notification. rewrite Herr.
  cbn. repeat split.
Qed.

Lemma status_with_error_code_is_error_witness :
  Twc.evse_state
    (Twc.vitals
       (twc (on_status_notification 3 4 1 "GroundFailure" "Faulted"
               charging_point)))
  = 4.
Proof.
  assert (H : "GroundFailure" <> "NoError") by discriminate.
  exact (proj1 (status_with_error_code_is_error 3 4 5 1 "GroundFailure"
                  "Faulted" charging_point H)).
Defined.

(** X5: Handling the same status notification a second time changes nothing,
    at whatever instants the two are handled. *)
Theorem on_status_notification_idempotent :
  forall (n1 n2 n3 n4 : Time) (c1 c2 : Z) (error_code status : string)
    (cp : ChargePoint),
    on_status_notification n3 n4 c2 error_code status
      (on_status_notification n1 n2 c1 error_code status cp)
    = on_status_notification n1 n2 c1 error_code status cp.
Proof.
  intros n1 n2 n3 n4 c1 c2 error_code status cp. open_point cp.
  unfold on_status_notification.
  destruct (negb (error_code =? "NoError")%string); [vm_compute; reflexivity|].
  destruct (status =? "Charging")%string;
    [|destruct (status =? "SuspendedEVSE")%string;
      [|destruct (status =? "SuspendedEV")%string]];
    destruct vc, cst; vm_compute; reflexivity.
Qed.

End Status.

(** ** Coherence of the state machine ([twc.py]) *)

Section Coherence.

Import Twc.

Ltac open_sim s :=
  unfold machine_coherent;
  destruct s as [[cc vc ? ? ? ? ? ? ? ? ? ? ? ? ? ? ? ? ? ? ? ? ? ? ? es ?] ? ? cst ? ?];
  cbn; intros ([Hcs Hsc] & Hcl & Hrange).

Ltac eqb_cases :=
  repeat match goal with
    | |- context [?e =? ?k] => destruct (Z.eqb_spec e k)
    end.

Ltac settle :=
  cbn; repeat split; intros;
  try discriminate; try lia; try congruence; try tauto;
  try (exfalso; intuition (discriminate || congruence || lia)).

Lemma set_enabled_coherent (enabled : bool) (now : Time) (s : TWCSimulator) :
  machine_coherent s -> machine_coherent (fst (set_enabled enabled now s)).
Proof.
  open_sim s. unfold set_enabled; cbn.
  destruct enabled; eqb_cases; destruct cc, vc, cst; settle.
Qed.

Lemma set_vehicle_connected_coherent (connected : bool) (now : Time)
    (s : TWCSimulator) :
  machine_coherent s -> machine_coherent (set_vehicle_connected connected now s).
Proof.
  open_sim s. unfold set_vehicle_connected; cbn.
  destruct connected; cbn; eqb_cases; destruct cc, cst; settle.
Qed.

Lemma set_error_coherent (has_error : bool) (now : Time) (s : TWCSimulator) :
  machine_coherent s -> machine_coherent (set_error has_error now s).
Proof.
  open_sim s. unfold set_error, set_enabled; cbn.
  destruct has_error; destruct cc, vc, cst; settle.
Qed.

Lemma set_ocpp_connected_coherent (connected : bool) (now : Time)
    (s : TWCSimulator) :
  machine_coherent s -> machine_coherent (set_ocpp_connected connected now s).
Proof.
  open_sim s. unfold set_ocpp_connected; cbn.
  destruct connected; destruct cc; settle.
Qed.

(** After a status notification the machine is coherent and not
    disabled, whatever it was before. *)
Lemma on_status_notification_coherent (now_enable now_connect : Time)
    (connector_id : Z) (error_code status : string) (cp : Server.ChargePoint) :
  let t :=
    Server.twc
      (Server.on_status_notification now_enable now_connect connector_id
         error_code status cp) in
  machine_coherent t /\ 2 <= evse_state (vitals t).
Proof.
  unfold machine_coherent.
  destruct cp as [[[cc vc ? ? ? ? ? ? ? ? ? ? ? ? ? ? ? ? ? ? ? ? ? ? ? es ?]
                     ? ? cst ? ?] ? ?].
  unfold Server.on_status_notification.
  destruct (negb (error_code =? "NoError")%string); [settle|].
  destruct (status =? "Charging")%string;
    [|destruct (status =? "SuspendedEVSE")%string;
      [|destruct (status =? "SuspendedEV")%string]];
    destruct vc, cst; settle.
Qed.

Lemma step_coherent (s s' : TWCSimulator) :
  twc_step s s' -> machine_coherent s -> machine_coherent s'.
Proof.
  intros [] H;
    auto using set_enabled_coherent, set_vehicle_connected_coherent,
      set_error_coherent, set_ocpp_connected_coherent.
  apply on_status_notification_coherent.
Qed.

Lemma reachable_coherent (s : TWCSimulator) :
  reachable s -> machine_coherent s.
Proof.
  induction 1 as [now | s s' _ IH Hstep].
  - unfold machine_coherent; cbn. repeat split; intros; try discriminate; lia.
  - eauto using step_coherent.
Qed.

(** X6: In every state reachable through the simulator's operations and
    status notifications, the contactor is closed exactly when the state is 3
    (so [charging] is just the contactor); a closed contactor comes with a
    connected vehicle and a charge-start time; and the state is one of
    0..4. *)
Theorem reachable_machine_coherent :
  forall s : TWCSimulator,
    reachable s ->
    (contactor_closed (vitals s) = true <-> evse_state (vitals s) = 3)
    /\ charging s = contactor_closed (vitals s)
    /\ (evse_state (vitals s) = 3 ->
        vehicle_connected (vitals s) = true /\ charging_start_time s <> None)
    /\ 0 <= evse_state (vitals s) <= 4.
Proof.
  intros s Hreach.
  destruct (reachable_coherent s Hreach) as ([Hcs Hsc] & Hcl & Hrange).
  split; [split; assumption|]. split; [|split; [|exact Hrange]].
  - unfold charging. destruct (contactor_closed (vitals s)) eqn:Hc; [|reflexivity].
    rewrite (Hcs eq_refl). reflexivity.
  - intros H3. apply Hcl, Hsc, H3.
Qed.

Lemma reachable_machine_coherent_witness :
  charging plugged_in = contactor_closed (vitals plugged_in)
  /\ 0 <= evse_state (vitals plugged_in) <= 4.
Proof.
  destruct (reachable_machine_coherent plugged_in plugged_in_reachable)
    as (_ & Hc & _ & Hr).
  split; [exact Hc | exact Hr].
Defined.

End Coherence.

(** ** [update_from_client]: what is written, and when *)

Section UpdateMore.

Import Twc.

Ltac project :=
  cbv -[PyDict.get py_sum filter gt float_len PrimFloat.div PrimFloat.ltb
        PrimFloat.sub py_int py_timestamp Z.eqb Z.sub whole_seconds].

(** The three stages of a call, on a simulator given by its fields. *)
Lemma update_from_client_stages (now : Time) (power : float)
    (currents voltages : PyDict.t)
    (frequency session_energy total_energy pcba_temp : float)
    (timestamp : option IsoParse) (s : TWCSimulator) :
  update_from_client now power currents voltages frequency session_energy
    total_energy pcba_temp timestamp s
  = match
      update_session_time now timestamp
        (update_readings currents voltages frequency session_energy
           total_energy s)
    with
    | Raised s' => Raised s'
    | Returned s' => Returned (update_indicators now pcba_temp s')
    end.
Proof. reflexivity. Qed.

(** A call never touches the vehicle flag, the link flag, the power limit
    or the simulator's start time. *)
Lemma update_from_client_frame_link (now : Time) (power : float)
    (currents voltages : PyDict.t)
    (frequency session_energy total_energy pcba_temp : float)
    (timestamp : option IsoParse) (s : TWCSimulator) :
  let s' :=
    state_of
      (update_from_client now power currents voltages frequency
         session_energy total_energy pcba_temp timestamp s) in
  vehicle_connected (vitals s') = vehicle_connected (vitals s)
  /\ ocpp_connected s' = ocpp_connected s
  /\ max_power s' = max_power s
  /\ start_time s' = start_time s.
Proof.
  rewrite update_from_client_stages.
  set (s1 := update_readings _ _ _ _ _ _).
  destruct (update_session_time_vitals now timestamp s1) as [n Hn].
  destruct (update_session_time now timestamp s1) as [s2|s2];
    cbn [state_of] in *; subst s2 s1;
    destruct s as [[] ? ? ? ? ?]; project; repeat split.
Qed.

(** The phase voltages and the frequency handed to a call are in the
    snapshot afterwards, whether it returns or raises. *)
Lemma update_from_client_voltages (now : Time) (power : float)
    (currents voltages : PyDict.t)
    (frequency session_energy total_energy pcba_temp : float)
    (timestamp : option IsoParse) (s : TWCSimulator) :
  let v :=
    vitals
      (state_of
         (update_from_client now power currents voltages frequency
            session_energy total_energy pcba_temp timestamp s)) in
  voltageA_v v = PyDict.get voltages "L1" 230
  /\ voltageB_v v = PyDict.get voltages "L2" 230
  /\ voltageC_v v = PyDict.get voltages "L3" 230
  /\ grid_hz v = frequency.
Proof.
  rewrite update_from_client_stages.
  set (s1 := update_readings _ _ _ _ _ _).
  destruct (update_session_time_vitals now timestamp s1) as [n Hn].
  destruct (update_session_time now timestamp s1) as [s2|s2];
    cbn [state_of] in *; subst s2 s1;
    destruct s as [[] ? ? ? ? ?]; project; repeat split.
Qed.

(** X7: Session time: without a charge-start time every call returns and
    resets [session_s] to 0, whatever the timestamp; with one, a call without
    timestamp leaves [session_s] as it was, and a call whose timestamp does
    not parse counts from the clock. *)
Theorem update_from_client_session_time :
  forall (now : Time) (power : float) (currents voltages : PyDict.t)
    (frequency session_energy total_energy pcba_temp : float)
    (timestamp : option IsoParse) (s : TWCSimulator),
    let r :=
      update_from_client now power currents voltages frequency
        session_energy total_energy pcba_temp timestamp s in
    (charging_start_time s = None ->
     has_raised r = false /\ session_s (vitals (state_of r)) = 0)
    /\ (forall started : Time,
           charging_start_time s = Some started ->
           timestamp = None ->
           has_raised r = false
           /\ session_s (vitals (state_of r)) = session_s (vitals s))
    /\ (forall started : Time,
           charging_start_time s = Some started ->
           timestamp = Some IsoInvalid ->
           has_raised r = false
           /\ session_s (vitals (state_of r)) = whole_seconds (now - started)).
Proof.
  intros now power currents voltages frequency session_energy total_energy
    pcba_temp timestamp s r.
  subst r. rewrite update_from_client_stages. unfold update_session_time.
  set (s1 := update_readings _ _ _ _ _ _).
  assert (H1 : charging_start_time s1 = charging_start_time s
               /\ session_s (vitals s1) = session_s (vitals s)).
  { subst s1. destruct s as [[] ? ? ? ? ?]. split; reflexivity. }
  destruct H1 as [Ht Hs]. rewrite Ht.
  split; [|split].
  - intros ->. cbn [has_raised state_of]. split; [reflexivity|].
    destruct s1 as [[] ? ? ? ? ?]. reflexivity.
  - intros started -> ->. cbn [has_raised state_of]. split; [reflexivity|].
    rewrite <- Hs. destruct s1 as [[] ? ? ? ? ?]. reflexivity.
  - intros started -> ->. cbn [has_raised state_of]. split; [reflexivity|].
    destruct s1 as [[] ? ? ? ? ?]. reflexivity.
Qed.

Lemma update_from_client_session_time_witness :
  session_s
    (vitals
       (state_of
          (update_from_client 9000000 0 [] [] 50 0 0 20 (Some IsoInvalid)
             plugged_in)))
  = 7.
Proof.
  destruct (update_from_client_session_time 9000000 0 [] [] 50 0 0 20
              (Some IsoInvalid) plugged_in) as (_ & _ & H).
  destruct (H 2000000 eq_refl eq_refl) as [_ Hs].
  rewrite Hs. reflexivity.
Defined.

(** X8: While a charge-start time is set, a call with a timestamp that has
    no UTC offset raises: the readings and both energy counters are already
    written, but [session_s], the indicator voltages, the uptime and the
    temperatures keep their old values. *)
Theorem update_from_client_naive_timestamp :
  forall (now : Time) (power : float) (currents voltages : PyDict.t)
    (frequency session_energy total_energy pcba_temp : float)
    (t started : Time) (s : TWCSimulator),
    charging_start_time s = Some started ->
    let r :=
      update_from_client now power currents voltages frequency
        session_energy total_energy pcba_temp (Some (IsoNaive t)) s in
    has_raised r = true
    /\ state_of r
       = update_readings currents voltages frequency session_energy
           total_energy s
    /\ session_energy_wh (vitals (state_of r)) = session_energy
    /\ total_energy_wh (vitals (state_of r)) = total_energy
    /\ session_s (vitals (state_of r)) = session_s (vitals s)
    /\ pilot_high_v (vitals (state_of r)) = pilot_high_v (vitals s)
    /\ pilot_low_v (vitals (state_of r)) = pilot_low_v (vitals s)
    /\ relay_coil_v (vitals (state_of r)) = relay_coil_v (vitals s)
    /\ uptime_s (vitals (state_of r)) = uptime_s (vitals s)
    /\ pcba_temp_c (vitals (state_of r)) = pcba_temp_c (vitals s).
Proof.
  intros now power currents voltages frequency session_energy total_energy
    pcba_temp t started s Hst r.
  subst r. rewrite update_from_client_stages. unfold update_session_time.
  set (s1 := update_readings _ _ _ _ _ _).
  assert (H1 : charging_start_time s1 = Some started).
  { subst s1. destruct s as [[] ? ? ? ? ?]. exact Hst. }
  rewrite H1. cbn [has_raised state_of]. subst s1.
  destruct s as [[] ? ? ? ? ?]. project. repeat split.
Qed.

Lemma update_from_client_naive_timestamp_witness :
  has_raised
    (update_from_client 9000000 0 [] [] 50 0 42 20 (Some (IsoNaive 8000000))
       plugged_in) = true
  /\ total_energy_wh
       (vitals
          (state_of
             (update_from_client 9000000 0 [] [] 50 0 42 20
                (Some (IsoNaive 8000000)) plugged_in))) = 42%float.
Proof.
  destruct (update_from_client_naive_timestamp 9000000 0 [] [] 50 0 42 20
              8000000 2000000 plugged_in eq_refl)
    as (Hr & _ & _ & Ht & _).
  split; [exact Hr | exact Ht].
Defined.

(** X9: When a call returns, the indicators follow the state the simulator
    is in: both pilot voltages are 12 in states 2 and 3 and 0 otherwise, the
    relay coil is at 12 exactly when the contactor is closed, handle and MCU
    temperatures are 20, and the uptime is [int] of the difference between
    the binary64 timestamps of the call and of the simulator's creation. *)
Theorem update_from_client_indicators :
  forall (now : Time) (power : float) (currents voltages : PyDict.t)
    (frequency session_energy total_energy pcba_temp : float)
    (timestamp : option IsoParse) (s : TWCSimulator),
    let r :=
      update_from_client now power currents voltages frequency
        session_energy total_energy pcba_temp timestamp s in
    has_raised r = false ->
    let v := vitals (state_of r) in
    pilot_high_v v
    = (if (evse_state (vitals s) =? 2) || (evse_state (vitals s) =? 3)
       then 12%float else 0%float)
    /\ pilot_low_v v = pilot_high_v v
    /\ relay_coil_v v
       = (if contactor_closed (vitals s) then 12%float else 0%float)
    /\ pcba_temp_c v = pcba_temp
    /\ handle_temp_c v = 20%float
    /\ mcu_temp_c v = 20%float
    /\ uptime_s v
       = py_int (PrimFloat.sub (py_timestamp now) (py_timestamp (start_time s))).
Proof.
  intros now power currents voltages frequency session_energy total_energy
    pcba_temp timestamp s r Hret v.
  subst v r. rewrite update_from_client_stages in *.
  set (s1 := update_readings _ _ _ _ _ _) in *.
  destruct (update_session_time_vitals now timestamp s1) as [n Hn].
  destruct (update_session_time now timestamp s1) as [s2|s2];
    [|discriminate].
  cbn [state_of] in *. subst s2 s1.
  destruct s as [[] ? ? ? ? ?]. project. repeat split.
Qed.

Lemma update_from_client_indicators_witness :
  relay_coil_v
    (vitals
       (state_of
          (update_from_client 9000000 0 [] [] 50 0 0 20 None plugged_in)))
  = 12%float
  /\ uptime_s
       (vitals
          (state_of
             (update_from_client 9000000 0 [] [] 50 0 0 20 None plugged_in)))
     = 9.
Proof.
  destruct (update_from_client_indicators 9000000 0 [] [] 50 0 0 20 None
              plugged_in eq_refl) as (_ & _ & H & _ & _ & _ & Hup).
  rewrite H, Hup. split; reflexivity.
Defined.

(** X10: The grid voltage is the default 230 whenever none of the three phase
    voltages is above 2, whether the call returns or raises. *)
Theorem update_from_client_grid_default :
  forall (now : Time) (power : float) (currents voltages : PyDict.t)
    (frequency session_energy total_energy pcba_temp : float)
    (timestamp : option IsoParse) (s : TWCSimulator),
    gt (PyDict.get voltages "L1" 230) 2 = false ->
    gt (PyDict.get voltages "L2" 230) 2 = false ->
    gt (PyDict.get voltages "L3" 230) 2 = false ->
    grid_v
      (vitals
         (state_of
            (update_from_client now power currents voltages frequency
               session_energy total_energy pcba_temp timestamp s)))
    = 230%float.
Proof.
  intros now power currents voltages frequency session_energy total_energy
    pcba_temp timestamp s H1 H2 H3.
  rewrite update_from_client_stages.
  set (s1 := update_readings _ _ _ _ _ _).
  destruct (update_session_time_vitals now timestamp s1) as [n Hn].
  assert (Hg : grid_v (vitals s1) = 230%float).
  { subst s1. destruct s as [[] ? ? ? ? ?]. project.
    cbn [filter]. rewrite H1, H2, H3. reflexivity. }
  destruct (update_session_time now timestamp s1) as [s2|s2];
    cbn [state_of] in *; subst s2; rewrite <- Hg;
    destruct s1 as [[] ? ? ? ? ?]; reflexivity.
Qed.

Lemma update_from_client_grid_default_witness :
  grid_v
    (vitals
       (state_of
          (update_from_client 9000000 0 [] [("L1", 0%float); ("L2", 1%float);
                                              ("L3", 2%float)]
             50 0 0 20 None plugged_in)))
  = 230%float.
Proof.
  apply update_from_client_grid_default; reflexivity.
Defined.

End UpdateMore.

(** ** From the entries of a reading to the snapshot ([on_meter_values]) *)

Section Readings.

Import Server.

(** Decides the tests on a measurand variable, one name at a time; the
    tests left between two names are computed. *)
Ltac split_measurand :=
  repeat match goal with
    | |- context [(?m =? ?k)%string] =>
        is_var m; destruct (String.eqb_spec m k) as [->|?]; cbn
    end.

Lemma nonempty_neq (p q : string) :
  nonempty q = true -> nonempty p = false -> p <> q.
Proof.
  unfold nonempty. intros Hq Hp ->. rewrite Hq in Hp. discriminate.
Qed.

(** The [if]/[elif] chain, seen from one key of each dictionary. *)
Lemma dispatch_currents (sv : SampledValue) (x : float) (l : Locals)
    (p : string) (d : float) :
  nonempty p = true ->
  PyDict.get (currents (dispatch sv x l)) p d
  = if tagged "Current.Import" p sv then x else PyDict.get (currents l) p d.
Proof.
  intros Hp. unfold dispatch, tagged.
  destruct sv as [m v ph]; cbn [measurand phase].
  destruct (String.eqb_spec m "Current.Import") as [->|Hm].
  - destruct (nonempty ph) eqn:Hph; cbn [andb].
    + cbn [currents with_currents].
      destruct (String.eqb_spec ph p) as [->|Hne].
      * apply get_set_same.
      * apply get_set_other. exact Hne.
    + pose proof (nonempty_neq ph p Hp Hph) as Hne.
      apply String.eqb_neq in Hne. rewrite Hne. reflexivity.
  - cbn [andb]. destruct (nonempty ph); split_measurand; cbn; reflexivity.
Qed.

Lemma dispatch_voltages (sv : SampledValue) (x : float) (l : Locals)
    (p : string) (d : float) :
  nonempty p = true ->
  PyDict.get (voltages (dispatch sv x l)) p d
  = if tagged "Voltage" p sv then x else PyDict.get (voltages l) p d.
Proof.
  intros Hp. unfold dispatch, tagged.
  destruct sv as [m v ph]; cbn [measurand phase].
  destruct (String.eqb_spec m "Voltage") as [->|Hm].
  - destruct (nonempty ph) eqn:Hph; cbn.
    + destruct (String.eqb_spec ph p) as [->|Hne].
      * apply get_set_same.
      * apply get_set_other. exact Hne.
    + pose proof (nonempty_neq ph p Hp Hph) as Hne.
      apply String.eqb_neq in Hne. rewrite Hne. reflexivity.
  - cbn [andb]. destruct (nonempty ph); split_measurand; cbn;
      reflexivity || congruence.
Qed.

Lemma dispatch_frequency (sv : SampledValue) (x : float) (l : Locals) :
  frequency (dispatch sv x l)
  = if of_measurand "Frequency" sv then x else frequency l.
Proof.
  unfold dispatch, of_measurand.
  destruct sv as [m v ph]; cbn [measurand phase].
  destruct (nonempty ph); split_measurand; cbn; reflexivity || congruence.
Qed.

Lemma dispatch_temperature (sv : SampledValue) (x : float) (l : Locals) :
  temperature (dispatch sv x l)
  = if of_measurand "Temperature" sv then x else temperature l.
Proof.
  unfold dispatch, of_measurand.
  destruct sv as [m v ph]; cbn [measurand phase].
  destruct (nonempty ph); split_measurand; cbn; reflexivity || congruence.
Qed.

(** An entry that is not recognised changes no local variable. *)
Lemma dispatch_unrecognised (sv : SampledValue) (x : float) (l : Locals) :
  recognised sv = false -> dispatch sv x l = l.
Proof.
  unfold recognised, mem, phase_scoped, unscoped, dispatch.
  destruct sv as [m v ph]; cbn [measurand phase existsb].
  destruct (nonempty ph); split_measurand; cbn; intros H;
    reflexivity || discriminate.
Qed.

(** After the loop over the entries, each variable holds the value of the
    last entry that addresses it, or what it held before. *)
Lemma process_values_entries (svs : list SampledValue) :
  forall l0 l : Locals,
    process_values svs l0 = Some l ->
    (forall (p : string) (d : float),
        nonempty p = true ->
        PyDict.get (currents l) p d
        = last_entry (tagged "Current.Import" p) (PyDict.get (currents l0) p d) svs
        /\ PyDict.get (voltages l) p d
           = last_entry (tagged "Voltage" p) (PyDict.get (voltages l0) p d) svs)
    /\ frequency l = last_entry (of_measurand "Frequency") (frequency l0) svs
    /\ temperature l
       = last_entry (of_measurand "Temperature") (temperature l0) svs.
Proof.
  unfold last_entry.
  induction svs as [|sv svs IH]; intros l0 l Hrun; cbn [process_values] in Hrun.
  - injection Hrun as <-. repeat split.
  - destruct (value sv) as [x|] eqn:Hx; [|discriminate].
    destruct (IH _ _ Hrun) as (Hphase & Hf & Ht).
    cbn [fold_left]. rewrite Hx. split; [|split].
    + intros p d Hp. destruct (Hphase p d Hp) as [Hc Hv].
      rewrite Hc, Hv, dispatch_currents, dispatch_voltages by exact Hp.
      split; reflexivity.
    + rewrite Hf, dispatch_frequency. reflexivity.
    + rewrite Ht, dispatch_temperature. reflexivity.
Qed.

(** Dropping the unrecognised entries does not change what the loop
    computes, as long as every value parses. *)
Lemma process_values_recognised (svs : list SampledValue) :
  forall l0 : Locals,
    forallb (fun sv => match value sv with Some _ => true | None => false end) svs
    = true ->
    process_values (filter recognised svs) l0 = process_values svs l0.
Proof.
  induction svs as [|sv svs IH]; intros l0 Hall; [reflexivity|].
  cbn [forallb] in Hall. apply andb_true_iff in Hall as [Hsv Hrest].
  cbn [filter process_values].
  destruct (value sv) as [x|] eqn:Hx; [|discriminate].
  destruct (recognised sv) eqn:Hrec.
  - cbn [process_values]. rewrite Hx. apply IH. exact Hrest.
  - rewrite (dispatch_unrecognised sv x l0 Hrec). apply IH. exact Hrest.
Qed.

(** What a reading whose values parse does, in full: the session energy
    is derived, then the simulator is updated once. *)
Lemma handle_reading_exact (now : Time) (r : Reading) (cp : ChargePoint)
    (l : Locals) :
  process_values (sampled_value r) locals0 = Some l ->
  handle_reading now r cp
  = map_result
      (fun t => with_twc t (derive_session_energy l cp))
      (Twc.update_from_client now (py_sum (PyDict.values (powers l)))
         (currents l) (voltages l) (frequency l)
         (match remembered_energy (derive_session_energy l cp) with
          | Some e => e
          | None => 0%float
          end)
         (total_energy l) (temperature l) (timestamp r) (twc cp)).
Proof.
  intros Hrun. unfold handle_reading, remembered_energy. rewrite Hrun.
  rewrite derive_session_energy_twc.
  destruct (last_session (derive_session_energy l cp)); cbn [option_map];
    match goal with
    | |- context [Twc.update_from_client ?n ?p ?c ?v ?f ?se ?te ?t ?ts ?s] =>
        destruct (Twc.update_from_client n p c v f se te t ts s)
    end; reflexivity.
Qed.

(** *** The loop over the readings of one event *)

Lemma meter_loop_append (clock : nat -> Time) (rs rs' : list Reading) :
  forall (i : nat) (cp : ChargePoint),
    meter_loop clock i (rs ++ rs') cp
    = match meter_loop clock i rs cp with
      | Returned cp' => meter_loop clock (i + List.length rs)%nat rs' cp'
      | Raised cp' => Raised cp'
      end.
Proof.
  induction rs as [|r0 rs IH]; intros i cp; cbn [app meter_loop List.length].
  - rewrite Nat.add_0_r. reflexivity.
  - destruct (handle_reading (clock i) r0 cp); [|reflexivity].
    rewrite IH. rewrite Nat.add_succ_comm. reflexivity.
Qed.

Lemma meter_loop_returns (clock : nat -> Time) (rs : list Reading) :
  forall (i : nat) (cp : ChargePoint),
    forallb passes rs = true ->
    exists cp' : ChargePoint, meter_loop clock i rs cp = Returned cp'.
Proof.
  induction rs as [|r rs IH]; intros i cp Hall; cbn [meter_loop].
  - eauto.
  - cbn [forallb] in Hall. apply andb_true_iff in Hall as [Hr Hrest].
    pose proof (handle_reading_returns (clock i) r cp Hr) as Hret.
    destruct (handle_reading (clock i) r cp); [|discriminate].
    apply IH. exact Hrest.
Qed.

(** X11: One value that [float] rejects discards its reading and every
    reading after it in the event; the readings before it stay applied. *)
Theorem on_meter_values_stops_at_bad_value :
  forall (clock : nat -> Time) (connector_id : Z) (rs rest : list Reading)
    (bad : Reading) (cp : ChargePoint),
    forallb passes rs = true ->
    values_parse bad = false ->
    on_meter_values clock connector_id (rs ++ bad :: rest) cp
    = on_meter_values clock connector_id rs cp.
Proof.
  intros clock connector_id rs rest bad cp Hrs Hbad.
  unfold on_meter_values. rewrite meter_loop_append.
  destruct (meter_loop_returns clock rs 0%nat cp Hrs) as [cp' Hrun].
  rewrite Hrun. cbn [meter_loop state_of].
  unfold handle_reading.
  rewrite (process_values_fails _ _ Hbad). reflexivity.
Qed.

Lemma on_meter_values_stops_at_bad_value_witness :
  on_meter_values (fun _ => 6000000) 1
    [register_only 100;
     Build_Reading [Build_SampledValue "Voltage" None "L1"] None;
     register_only 200]
    connected
  = on_meter_values (fun _ => 6000000) 1 [register_only 100] connected.
Proof.
  apply (on_meter_values_stops_at_bad_value (fun _ => 6000000) 1
           [register_only 100] [register_only 200]
           (Build_Reading [Build_SampledValue "Voltage" None "L1"] None)
           connected); reflexivity.
Defined.

End Readings.

(** ** Meter-values events, end to end *)

Section Events.

Import Server.

Lemma state_of_map_result {A B : Type} (f : A -> B) (r : result A) :
  state_of (map_result f r) = f (state_of r).
Proof. destruct r; reflexivity. Qed.

Lemma last_entry_unselected (sel : SampledValue -> bool) (d : float)
    (svs : list SampledValue) :
  forallb (fun sv => negb (sel sv)) svs = true -> last_entry sel d svs = d.
Proof.
  unfold last_entry. revert d.
  induction svs as [|sv svs IH]; intros d Hall; [reflexivity|].
  cbn [forallb] in Hall. apply andb_true_iff in Hall as [Hsv Hrest].
  cbn [fold_left]. destruct (sel sv); [discriminate|]. apply IH. exact Hrest.
Qed.

(** The simulator after an event whose readings are handled to the end:
    the last reading's variables, written by one [update_from_client]. *)
Lemma on_meter_values_last (clock : nat -> Time) (connector_id : Z)
    (rs : list Reading) (r : Reading) (cp : ChargePoint) :
  forallb passes rs = true ->
  values_parse r = true ->
  exists (cp1 : ChargePoint) (l : Locals) (power session_energy : float),
    process_values (sampled_value r) locals0 = Some l
    /\ total_energy l = reported_total r
    /\ twc (on_meter_values clock connector_id (rs ++ [r]) cp)
       = state_of
           (Twc.update_from_client (clock (List.length rs)) power
              (currents l) (voltages l) (frequency l) session_energy
              (total_energy l) (temperature l) (timestamp r) (twc cp1)).
Proof.
  intros Hrs Hp.
  destruct (meter_loop_returns clock rs 0%nat cp Hrs) as [cp1 Hrun].
  destruct (process_reading r Hp) as (l & Hl & Htot & _).
  exists cp1, l. do 2 eexists. split; [exact Hl|]. split; [exact Htot|].
  unfold on_meter_values. rewrite meter_loop_append, Hrun.
  cbn [meter_loop Nat.add].
  rewrite (handle_reading_exact _ r cp1 l Hl).
  match goal with
  | |- context [Twc.update_from_client ?n ?p ?c ?v ?f ?se ?te ?t ?ts ?s] =>
      destruct (Twc.update_from_client n p c v f se te t ts s) eqn:E
  end; cbn [map_result state_of twc with_twc]; rewrite E; reflexivity.
Qed.

(** X12: After a meter-values event handled to the end, the snapshot shows
    for each phase current and phase voltage the value of the last entry of
    the last reading tagged with that phase (0 without one), the last
    frequency entry (50 without one) and the last cumulative energy. *)
Theorem on_meter_values_snapshot_readings :
  forall (clock : nat -> Time) (connector_id : Z) (rs : list Reading)
    (r : Reading) (cp : ChargePoint),
    forallb passes rs = true ->
    values_parse r = true ->
    let v :=
      Twc.vitals (twc (on_meter_values clock connector_id (rs ++ [r]) cp)) in
    let svs := sampled_value r in
    Twc.currentA_a v = last_entry (tagged "Current.Import" "L1") 0 svs
    /\ Twc.currentB_a v = last_entry (tagged "Current.Import" "L2") 0 svs
    /\ Twc.currentC_a v = last_entry (tagged "Current.Import" "L3") 0 svs
    /\ Twc.currentN_a v = last_entry (tagged "Current.Import" "N") 0 svs
    /\ Twc.voltageA_v v = last_entry (tagged "Voltage" "L1") 0 svs
    /\ Twc.voltageB_v v = last_entry (tagged "Voltage" "L2") 0 svs
    /\ Twc.voltageC_v v = last_entry (tagged "Voltage" "L3") 0 svs
    /\ Twc.grid_hz v = last_entry (of_measurand "Frequency") 50 svs
    /\ Twc.total_energy_wh v = reported_total r.
Proof.
  intros clock connector_id rs r cp Hrs Hp v svs. subst v svs.
  destruct (on_meter_values_last clock connector_id rs r cp Hrs Hp)
    as (cp1 & l & power & se & Hl & Htot & ->).
  destruct (process_values_entries _ _ _ Hl) as (Hphase & Hf & _).
  match goal with
  | |- context [Twc.update_from_client ?n ?p ?c ?v ?f ?se ?te ?t ?ts ?s] =>
      destruct (update_from_client_currents n p c v f se te t ts s)
        as (-> & -> & -> & -> & _);
      destruct (update_from_client_voltages n p c v f se te t ts s)
        as (-> & -> & -> & ->);
      destruct (update_from_client_energy n p c v f se te t ts s)
        as (_ & ->)
  end.
  rewrite Hf, Htot.
  rewrite (proj1 (Hphase "L1" 0%float eq_refl)),
    (proj1 (Hphase "L2" 0%float eq_refl)),
    (proj1 (Hphase "L3" 0%float eq_refl)),
    (proj1 (Hphase "N" 0%float eq_refl)),
    (proj2 (Hphase "L1" 230%float eq_refl)),
    (proj2 (Hphase "L2" 230%float eq_refl)),
    (proj2 (Hphase "L3" 230%float eq_refl)).
  repeat split.
Qed.

Lemma on_meter_values_snapshot_readings_witness :
  Twc.currentB_a
    (Twc.vitals
       (twc
          (on_meter_values (fun _ => 6000000) 1
             [Build_Reading
                [phase_entry "Current.Import" "L2" 7;
                 phase_entry "Current.Import" "L2-N" 9;
                 phase_entry "Current.Import" "L2" 16]
                None]
             connected)))
  = 16%float.
Proof.
  destruct (on_meter_values_snapshot_readings (fun _ => 6000000) 1 []
              (Build_Reading
                 [phase_entry "Current.Import" "L2" 7;
                  phase_entry "Current.Import" "L2-N" 9;
                  phase_entry "Current.Import" "L2" 16]
                 None)
              connected eq_refl eq_refl) as (_ & H & _).
  cbn [app] in H. rewrite H. reflexivity.
Defined.

(** X13: In an event handled to the end (the last reading's values all
    parse, the readings before it raise no exception), a last reading
    without any [Voltage] entry leaves the three phase voltages at 0 (the
    dictionary is pre-filled, so the 230 default of the lookup never
    applies) while the grid voltage shows the default 230. *)
Theorem on_meter_values_without_voltage :
  forall (clock : nat -> Time) (connector_id : Z) (rs : list Reading)
    (r : Reading) (cp : ChargePoint),
    forallb passes rs = true ->
    values_parse r = true ->
    forallb (fun sv => negb (of_measurand "Voltage" sv)) (sampled_value r)
    = true ->
    let v :=
      Twc.vitals (twc (on_meter_values clock connector_id (rs ++ [r]) cp)) in
    Twc.voltageA_v v = 0%float
    /\ Twc.voltageB_v v = 0%float
    /\ Twc.voltageC_v v = 0%float
    /\ Twc.grid_v v = 230%float.
Proof.
  intros clock connector_id rs r cp Hrs Hp Hnone v.
  assert (Hsel : forall p : string,
             last_entry (tagged "Voltage" p) 0 (sampled_value r) = 0%float).
  { intros p. apply last_entry_unselected.
    rewrite forallb_forall in *. intros sv Hin. specialize (Hnone sv Hin).
    unfold tagged, of_measurand in *.
    destruct (measurand sv =? "Voltage")%string; [discriminate|reflexivity]. }
  destruct (on_meter_values_snapshot_readings clock connector_id rs r cp Hrs Hp)
    as (_ & _ & _ & _ & HA & HB & HC & _).
  fold v in HA, HB, HC. rewrite Hsel in HA, HB, HC.
  repeat (split; [assumption|]).
  subst v.
  destruct (on_meter_values_last clock connector_id rs r cp Hrs Hp)
    as (cp1 & l & power & se & Hl & Htot & ->).
  destruct (process_values_entries _ _ _ Hl) as (Hphase & _).
  apply update_from_client_grid_default;
    [rewrite (proj2 (Hphase "L1" 230%float eq_refl))
    |rewrite (proj2 (Hphase "L2" 230%float eq_refl))
    |rewrite (proj2 (Hphase "L3" 230%float eq_refl))];
    cbn [locals0 voltages PyDict.get String.eqb Ascii.eqb Bool.eqb];
    rewrite Hsel; reflexivity.
Qed.

Lemma on_meter_values_without_voltage_witness :
  Twc.voltageA_v
    (Twc.vitals
       (twc (on_meter_values (fun _ => 6000000) 1 [register_only 100] connected)))
  = 0%float
  /\ Twc.grid_v
       (Twc.vitals
          (twc (on_meter_values (fun _ => 6000000) 1 [register_only 100]
                  connected)))
     = 230%float.
Proof.
  destruct (on_meter_values_without_voltage (fun _ => 6000000) 1 []
              (register_only 100) connected eq_refl eq_refl eq_refl)
    as (HA & _ & _ & Hg).
  split; [exact HA | exact Hg].
Defined.

End Events.

(** ** How the handlers compose *)

Section Compose.

Import Server.

(** X14: Entries the handler does not recognise (an unknown measurand, or a
    per-phase measurand without phase tag) can be removed from every reading
    of an event without changing what the event does, provided all values
    parse. *)
Theorem on_meter_values_ignores_unrecognised :
  forall (clock : nat -> Time) (connector_id : Z) (meter_value : list Reading)
    (cp : ChargePoint),
    forallb values_parse meter_value = true ->
    on_meter_values clock connector_id (map recognised_only meter_value) cp
    = on_meter_values clock connector_id meter_value cp.
Proof.
  intros clock connector_id meter_value cp Hall. unfold on_meter_values.
  f_equal. generalize 0%nat. revert cp.
  induction meter_value as [|r rs IH]; intros cp i; [reflexivity|].
  cbn [forallb] in Hall. apply andb_true_iff in Hall as [Hr Hrest].
  cbn [map meter_loop].
  assert (Hsame : handle_reading (clock i) (recognised_only r) cp
                  = handle_reading (clock i) r cp).
  { unfold handle_reading, recognised_only.
    cbn [sampled_value timestamp].
    rewrite (process_values_recognised _ locals0 Hr). reflexivity. }
  rewrite Hsame.
  destruct (handle_reading (clock i) r cp); [|reflexivity].
  apply IH. exact Hrest.
Qed.

Lemma on_meter_values_ignores_unrecognised_witness :
  on_meter_values (fun _ => 6000000) 1
    [Build_Reading [entry "Energy.Active.Import.Register" 100] None] connected
  = on_meter_values (fun _ => 6000000) 1
      [Build_Reading
         [entry "Voltage" 231; entry "Energy.Active.Import.Register" 100;
          entry "SoC" 80]
         None]
      connected.
Proof.
  apply (on_meter_values_ignores_unrecognised (fun _ => 6000000) 1
           [Build_Reading
              [entry "Voltage" 231; entry "Energy.Active.Import.Register" 100;
               entry "SoC" 80]
              None]
           connected).
  reflexivity.
Defined.

(** X15: While a charge-start time is set, a reading that comes first in
    the event, whose values all parse and whose timestamp has no UTC offset,
    ends the event: the readings after it are never handled, and of the
    reading itself the cumulative counter is written but neither the session
    time nor the uptime. *)
Theorem on_meter_values_stops_at_naive_timestamp :
  forall (clock : nat -> Time) (connector_id : Z) (r : Reading)
    (rest : list Reading) (t started : Time) (cp : ChargePoint),
    Twc.charging_start_time (twc cp) = Some started ->
    values_parse r = true ->
    timestamp r = Some (IsoNaive t) ->
    let cp' := on_meter_values clock connector_id (r :: rest) cp in
    cp' = on_meter_values clock connector_id [r] cp
    /\ Twc.total_energy_wh (Twc.vitals (twc cp')) = reported_total r
    /\ Twc.session_s (Twc.vitals (twc cp'))
       = Twc.session_s (Twc.vitals (twc cp))
    /\ Twc.uptime_s (Twc.vitals (twc cp'))
       = Twc.uptime_s (Twc.vitals (twc cp)).
Proof.
  intros clock connector_id r rest t started cp Hst Hp Hts cp'.
  destruct (process_reading r Hp) as (l & Hl & Htot & _).
  assert (Hcp' : cp' = state_of (handle_reading (clock 0%nat) r cp)
                 /\ on_meter_values clock connector_id [r] cp
                    = state_of (handle_reading (clock 0%nat) r cp)).
  { subst cp'. unfold on_meter_values. cbn [meter_loop].
    rewrite (handle_reading_exact _ r cp l Hl), Hts.
    match goal with
    | |- context [Twc.update_from_client ?n ?p ?c ?v ?f ?se ?te ?tt
                    (Some (IsoNaive t)) ?s] =>
        destruct (update_from_client_naive_timestamp n p c v f se te tt
                    t started s Hst) as (Hraised & _);
        destruct (Twc.update_from_client n p c v f se te tt
                    (Some (IsoNaive t)) s); [discriminate|]
    end.
    split; reflexivity. }
  destruct Hcp' as [-> Hone]. split; [symmetry; exact Hone|].
  rewrite (handle_reading_exact _ r cp l Hl), Hts, state_of_map_result.
  cbn [twc with_twc].
  match goal with
  | |- context [Twc.update_from_client ?n ?p ?c ?v ?f ?se ?te ?tt
                  (Some (IsoNaive t)) ?s] =>
      destruct (update_from_client_naive_timestamp n p c v f se te tt
                  t started s Hst)
        as (_ & _ & _ & Hte & Hss & _ & _ & _ & Hup & _)
  end.
  rewrite Hte, Hss, Hup, Htot. repeat split.
Qed.

Lemma on_meter_values_stops_at_naive_timestamp_witness :
  on_meter_values (fun _ => 9000000) 1
    [Build_Reading [entry "Energy.Active.Import.Register" 7]
       (Some (IsoNaive 8000000));
     register_only 8]
    charging_point
  = on_meter_values (fun _ => 9000000) 1
      [Build_Reading [entry "Energy.Active.Import.Register" 7]
         (Some (IsoNaive 8000000))]
      charging_point.
Proof.
  exact (proj1 (on_meter_values_stops_at_naive_timestamp (fun _ => 9000000) 1
                  (Build_Reading [entry "Energy.Active.Import.Register" 7]
                     (Some (IsoNaive 8000000)))
                  [register_only 8] 8000000 2000000 charging_point
                  eq_refl eq_refl eq_refl)).
Defined.

(** *** Meter values and the active transaction *)

Lemma derive_session_energy_tid (l : Locals) (x : option Z) (cp : ChargePoint) :
  derive_session_energy l (with_transaction_id x cp)
  = with_transaction_id x (derive_session_energy l cp).
Proof.
  unfold derive_session_energy. cbn [last_session with_transaction_id].
  destruct (last_session cp); [destruct (negb _)|]; reflexivity.
Qed.

Lemma handle_reading_tid (now : Time) (r : Reading) (x : option Z)
    (cp : ChargePoint) :
  handle_reading now r (with_transaction_id x cp)
  = map_result (with_transaction_id x) (handle_reading now r cp).
Proof.
  unfold handle_reading.
  destruct (process_values (sampled_value r) locals0) as [l|]; [|reflexivity].
  rewrite derive_session_energy_tid.
  cbn [twc last_session with_transaction_id].
  match goal with
  | |- context [Twc.update_from_client ?n ?p ?c ?v ?f ?se ?te ?t ?ts ?s] =>
      destruct (Twc.update_from_client n p c v f se te t ts s)
  end; reflexivity.
Qed.

Lemma meter_loop_tid (clock : nat -> Time) (rs : list Reading) (x : option Z) :
  forall (i : nat) (cp : ChargePoint),
    meter_loop clock i rs (with_transaction_id x cp)
    = map_result (with_transaction_id x) (meter_loop clock i rs cp).
Proof.
  induction rs as [|r rs IH]; intros i cp; cbn [meter_loop]; [reflexivity|].
  rewrite handle_reading_tid.
  destruct (handle_reading (clock i) r cp); cbn [map_result];
    [apply IH | reflexivity].
Qed.

(** X16: Meter values are handled the same with or without an active
    transaction: stop-transaction and a meter-values event commute, so
    readings that arrive after the stop still update the remembered session
    and the snapshot. *)
Theorem on_meter_values_commutes_with_stop :
  forall (clock : nat -> Time) (connector_id meter_stop tid : Z)
    (timestamp : IsoParse) (meter_value : list Reading) (cp : ChargePoint),
    on_meter_values clock connector_id meter_value
      (on_stop_transaction meter_stop timestamp tid cp)
    = on_stop_transaction meter_stop timestamp tid
        (on_meter_values clock connector_id meter_value cp).
Proof.
  intros. unfold on_meter_values, on_stop_transaction.
  rewrite meter_loop_tid. apply state_of_map_result.
Qed.

(** *** Start-transaction *)




(** X19: For timezone-aware timestamps before second 2^34 of the epoch
    (where [int] of the binary64 timestamp is the exact second, last
    conjunct), the transaction id is the whole second of the timestamp, so
    two
    start-transactions whose timestamps fall in the same second get the same
    id; it is returned, stored as the active transaction and stored in the
    session record. *)
Theorem transaction_id_is_whole_second :
  forall (now1 now2 : Time) (c1 c2 : Z) (tag1 tag2 : string) (m1 m2 : Z)
    (sec us1 us2 : Z) (cp1 cp2 : ChargePoint),
    0 <= sec < 17179869184 -> 0 <= us1 < 1000000 -> 0 <= us2 < 1000000 ->
    let r1 :=
      on_start_transaction now1 c1 tag1 m1 (IsoAware (sec * 1000000 + us1)) cp1 in
    let r2 :=
      on_start_transaction now2 c2 tag2 m2 (IsoAware (sec * 1000000 + us2)) cp2 in
    snd r1 = sec
    /\ snd r2 = snd r1
    /\ transaction_id (fst r1) = Some sec
    /\ option_map ChargingSession.transaction_id (last_session (fst r1))
       = Some sec
    /\ py_int (py_timestamp (sec * 1000000 + us1)) = sec.
Proof.
  intros now1 now2 c1 c2 tag1 tag2 m1 m2 sec us1 us2 cp1 cp2 Hsec Hus1 Hus2.
  assert (Hq : forall us, 0 <= us < 1000000 ->
                          whole_seconds (sec * 1000000 + us) = sec).
  { intros us Hus. unfold whole_seconds.
    rewrite Z.quot_div_nonneg by lia.
    rewrite Z.div_add_l by lia. rewrite Z.div_small by lia. lia. }
  assert (Hf : py_int (py_timestamp (sec * 1000000 + us1)) = sec).
  { unfold py_timestamp. rewrite whole_seconds_exact by (cbn; lia).
    apply Hq. assumption. }
  cbn [on_start_transaction fst snd transaction_id last_session
       with_transaction_id with_last_session option_map
       ChargingSession.transaction_id].
  rewrite !Hq by assumption. repeat split. exact Hf.
Qed.

Lemma transaction_id_is_whole_second_witness :
  snd (on_start_transaction 0 1 "A" 0 (IsoAware (5 * 1000000 + 1)) connected)
  = snd (on_start_transaction 0 1 "B" 0 (IsoAware (5 * 1000000 + 999999))
           started).
Proof.
  symmetry.
  apply (transaction_id_is_whole_second 0 0 1 1 "A" "B" 0 0 5 1 999999
           connected started); lia.
Defined.

(** *** What meter values leave alone *)

Lemma handle_reading_outside (now : Time) (r : Reading) (cp : ChargePoint) :
  outside_telemetry (state_of (handle_reading now r cp)) = outside_telemetry cp.
Proof.
  destruct (values_parse r) eqn:Hp.
  2:{ unfold handle_reading. rewrite (process_values_fails _ _ Hp). reflexivity. }
  destruct (process_reading r Hp) as (l & Hl & _).
  rewrite (handle_reading_exact now r cp l Hl), state_of_map_result.
  unfold outside_telemetry. cbn [twc with_twc transaction_id last_session].
  match goal with
  | |- context [Twc.update_from_client ?n ?p ?c ?v ?f ?se ?te ?t ?ts ?s] =>
      destruct (update_from_client_frame n p c v f se te t ts s)
        as (-> & -> & ->);
      destruct (update_from_client_frame_link n p c v f se te t ts s)
        as (-> & -> & _)
  end.
  unfold derive_session_energy.
  destruct (last_session cp) as [last|] eqn:Hlast;
    [|rewrite Hlast; reflexivity].
  destruct (negb (interval_energy_reported l));
    [|rewrite Hlast; reflexivity].
  destruct last; reflexivity.
Qed.

Lemma meter_loop_outside (clock : nat -> Time) (rs : list Reading) :
  forall (i : nat) (cp : ChargePoint),
    outside_telemetry (state_of (meter_loop clock i rs cp)) = outside_telemetry cp.
Proof.
  induction rs as [|r rs IH]; intros i cp; cbn [meter_loop]; [reflexivity|].
  pose proof (handle_reading_outside (clock i) r cp) as Hr.
  destruct (handle_reading (clock i) r cp) as [cp1|cp1]; cbn [state_of] in *.
  - rewrite IH. exact Hr.
  - exact Hr.
Qed.

(** X24: Whatever a meter-values event contains (malformed values and
    timestamps included), it changes neither the operational state, the
    contactor, the vehicle flag, the charge-start time, the link flag nor the
    active transaction, and of the remembered session it changes the
    energy at most. *)
Theorem on_meter_values_leaves_state_machine :
  forall (clock : nat -> Time) (connector_id : Z) (meter_value : list Reading)
    (cp : ChargePoint),
    let cp' := on_meter_values clock connector_id meter_value cp in
    Twc.evse_state (Twc.vitals (twc cp')) = Twc.evse_state (Twc.vitals (twc cp))
    /\ Twc.contactor_closed (Twc.vitals (twc cp'))
       = Twc.contactor_closed (Twc.vitals (twc cp))
    /\ Twc.vehicle_connected (Twc.vitals (twc cp'))
       = Twc.vehicle_connected (Twc.vitals (twc cp))
    /\ Twc.charging_start_time (twc cp') = Twc.charging_start_time (twc cp)
    /\ Twc.ocpp_connected (twc cp') = Twc.ocpp_connected (twc cp)
    /\ transaction_id cp' = transaction_id cp
    /\ option_map (ChargingSession.with_session_energy 0) (last_session cp')
       = option_map (ChargingSession.with_session_energy 0) (last_session cp).
Proof.
  intros clock connector_id meter_value cp cp'. subst cp'.
  pose proof (meter_loop_outside clock meter_value 0%nat cp) as H.
  unfold on_meter_values, outside_telemetry in *.
  injection H as H1 H2 H3 H4 H5 H6 H7.
  repeat split; assumption.
Qed.

End Compose.

(** ** The bridge between events ([__main__.py], [server.py], [twc.py]) *)

Section BridgeInvariants.

Import Server.

Lemma py_max0_is_not_negative (x : float) : not_negative (py_max0 x) = true.
Proof.
  unfold not_negative, py_max0, gt.
  destruct (PrimFloat.ltb 0 x) eqn:E; [|reflexivity].
  rewrite leb_spec. rewrite ltb_spec in E. unfold SFleb, SFltb in *.
  change (Prim2SF 0) with (S754_zero false) in *.
  destruct (Prim2SF x) as [sg|sg| |sg m e]; try destruct sg;
    cbn in *; congruence.
Qed.

(** A status notification touches neither the energy counters, the link
    flag nor the ledger. *)
Lemma on_status_notification_frame (now_enable now_connect : Time)
    (connector_id : Z) (error_code status : string) (cp : ChargePoint) :
  let cp' :=
    on_status_notification now_enable now_connect connector_id error_code
      status cp in
  Twc.session_energy_wh (Twc.vitals (twc cp'))
  = Twc.session_energy_wh (Twc.vitals (twc cp))
  /\ Twc.ocpp_connected (twc cp') = Twc.ocpp_connected (twc cp)
  /\ transaction_id cp' = transaction_id cp
  /\ last_session cp' = last_session cp.
Proof.
  destruct cp as [[[cc vc ? ? ? ? ? ? ? ? ? ? ? ? ? ? ? ? ? ? ? ? ? ? ? es ?]
                     ? ? cst ? ?] ? ?].
  unfold on_status_notification.
  destruct (negb (error_code =? "NoError")%string); [cbn; repeat split|].
  destruct (status =? "Charging")%string;
    [|destruct (status =? "SuspendedEVSE")%string;
      [|destruct (status =? "SuspendedEV")%string]];
    destruct vc, cst; cbn; repeat split.
Qed.

Lemma derive_session_energy_ledger (l : Locals) (cp : ChargePoint) :
  ledger_coherent cp -> ledger_coherent (derive_session_energy l cp).
Proof.
  unfold ledger_coherent, remembered_energy, derive_session_energy.
  destruct (last_session cp) as [last|] eqn:Hlast; [|rewrite Hlast; tauto].
  destruct (negb (interval_energy_reported l)); [|rewrite Hlast; tauto].
  intros [Htid Hen].
  cbn [transaction_id last_session with_last_session option_map] in *.
  split.
  - intros tid Ht. rewrite <- (Htid tid Ht). destruct last; reflexivity.
  - intros e He. injection He as <-. destruct last; cbn.
    apply py_max0_is_not_negative.
Qed.

Lemma handle_reading_coherent (now : Time) (r : Reading) (cp : ChargePoint) :
  bridge_coherent (Linked cp) ->
  bridge_coherent (Linked (state_of (handle_reading now r cp))).
Proof.
  intros Hcp. destruct (values_parse r) eqn:Hp.
  2:{ unfold handle_reading.
      rewrite (process_values_fails _ _ Hp). exact Hcp. }
  destruct (process_reading r Hp) as (l & Hl & _).
  rewrite (handle_reading_exact now r cp l Hl), state_of_map_result.
  destruct Hcp as (Hm & Hne & Hse & Hlink & Hledger).
  cbn [simulator] in *.
  pose proof (derive_session_energy_ledger l cp Hledger) as Hl'.
  set (cp1 := derive_session_energy l cp) in *.
  match goal with
  | |- context [Twc.update_from_client ?n ?p ?c ?v ?f ?se ?te ?t ?ts ?s] =>
      destruct (update_from_client_frame n p c v f se te t ts s)
        as (Hes & Hcc & Hcst);
      destruct (update_from_client_frame_link n p c v f se te t ts s)
        as (Hvc & Hoc & _);
      destruct (update_from_client_energy n p c v f se te t ts s)
        as (Hen & _);
      set (t' := state_of (Twc.update_from_client n p c v f se te t ts s)) in *
  end.
  unfold bridge_coherent, machine_coherent. cbn [simulator twc with_twc].
  rewrite Hes, Hcc, Hcst, Hvc, Hoc, Hen.
  split; [exact Hm|]. split; [exact Hne|]. split; [|split; [exact Hlink|]].
  - destruct (remembered_energy cp1) as [e|] eqn:He; [|reflexivity].
    exact (proj2 Hl' e He).
  - destruct Hl' as [Htid Hpos]. split; [exact Htid | exact Hpos].
Qed.

Lemma meter_loop_coherent (clock : nat -> Time) (rs : list Reading) :
  forall (i : nat) (cp : ChargePoint),
    bridge_coherent (Linked cp) ->
    bridge_coherent (Linked (state_of (meter_loop clock i rs cp))).
Proof.
  induction rs as [|r rs IH]; intros i cp Hcp; cbn [meter_loop]; [exact Hcp|].
  pose proof (handle_reading_coherent (clock i) r cp Hcp) as Hr.
  destruct (handle_reading (clock i) r cp) as [cp1|cp1]; cbn [state_of] in *.
  - apply IH. exact Hr.
  - exact Hr.
Qed.

Lemma bridge_step_coherent (b b' : Bridge) :
  bridge_step b b' -> bridge_coherent b -> bridge_coherent b'.
Proof.
  intros Hstep Hb. destruct Hstep.
  - (* a charge point connects *)
    destruct Hb as (Hm & Hne & Hse & _ & Hs0 & Hcst). cbn [simulator] in *.
    unfold bridge_coherent. cbn [simulator twc init].
    split; [apply set_ocpp_connected_coherent; exact Hm|].
    destruct t as [[] ? ? ? ? ?]; cbn in *.
    repeat split; try assumption; try discriminate.
  - (* the connection is lost *)
    destruct Hb as (Hm & Hne & Hse & _). cbn [simulator] in *.
    unfold bridge_coherent, disconnect. cbn [simulator twc with_twc].
    split; [apply set_ocpp_connected_coherent; exact Hm|].
    destruct cp as [[[] ? ? ? ? ?] ? ?]; cbn in *.
    repeat split; try assumption; try discriminate.
  - (* status notification *)
    destruct Hb as (_ & _ & Hse & Hlink & Hledger). cbn [simulator] in *.
    destruct (on_status_notification_coherent now_enable now_connect
                connector_id error_code status cp) as [Hm Hge].
    destruct (on_status_notification_frame now_enable now_connect
                connector_id error_code status cp) as (Hen & Hoc & Htid & Hls).
    unfold bridge_coherent, ledger_coherent, remembered_energy in *.
    cbn [simulator]. rewrite Hen, Hoc, Htid, Hls.
    split; [exact Hm|]. split; [lia|]. split; [exact Hse|].
    split; [exact Hlink | exact Hledger].
  - (* start-transaction *)
    destruct Hb as (Hm & Hne & Hse & Hlink & Htid & Hpos).
    unfold bridge_coherent, ledger_coherent, remembered_energy,
      on_start_transaction in *.
    cbn [simulator fst twc with_last_session with_transaction_id
         transaction_id last_session option_map
         ChargingSession.transaction_id ChargingSession.session_energy] in *.
    do 4 (split; [assumption|]). split.
    + intros tid Ht. exact Ht.
    + intros e He. injection He as <-.
      destruct (last_session cp) as [last|]; [|reflexivity].
      destruct (ChargingSession.id_tag last =? id_tag)%string; [|reflexivity].
      apply Hpos. reflexivity.
  - (* stop-transaction *)
    destruct Hb as (Hm & Hne & Hse & Hlink & Htid & Hpos).
    unfold bridge_coherent, ledger_coherent, on_stop_transaction in *.
    cbn [simulator twc with_transaction_id transaction_id last_session] in *.
    do 4 (split; [assumption|]). split; [discriminate | exact Hpos].
  - (* meter values *)
    apply meter_loop_coherent. exact Hb.
Qed.

Lemma bridge_always_coherent (b : Bridge) :
  bridge_reachable b -> bridge_coherent b.
Proof.
  induction 1 as [now | b b' _ IH Hstep].
  - unfold bridge_coherent, machine_coherent. cbn.
    repeat split; intros; try discriminate; lia.
  - eauto using bridge_step_coherent.
Qed.

(** A freshly started bridge to which a charge point has connected, and
    the same after a start-transaction. *)
Lemma connected_reachable : bridge_reachable (Linked connected).
Proof.
  eapply bridge_next; [apply (bridge_fresh 0) | apply step_link].
Defined.

Lemma started_reachable : bridge_reachable (Linked started).
Proof.
  eapply bridge_next; [apply connected_reachable | apply step_start].
Defined.

(** X20: Between any two events of the running bridge, the contactor is
    closed exactly when the simulator is in state 3, and then a vehicle is
    connected and the charge-start time is set; the state is 0, 2, 3 or 4:
    the bridge never leaves the simulator disabled. *)
Theorem bridge_machine_coherent :
  forall b : Bridge,
    bridge_reachable b ->
    let s := simulator b in
    (Twc.contactor_closed (Twc.vitals s) = true
     <-> Twc.evse_state (Twc.vitals s) = 3)
    /\ (Twc.evse_state (Twc.vitals s) = 3 ->
        Twc.vehicle_connected (Twc.vitals s) = true
        /\ Twc.charging_start_time s <> None)
    /\ (Twc.evse_state (Twc.vitals s) = 0
        \/ Twc.evse_state (Twc.vitals s) = 2
        \/ Twc.evse_state (Twc.vitals s) = 3
        \/ Twc.evse_state (Twc.vitals s) = 4).
Proof.
  intros b Hreach s.
  destruct (bridge_always_coherent b Hreach)
    as (([Hcs Hsc] & Hcl & Hrange) & Hne & _).
  fold s in Hcs, Hsc, Hcl, Hrange, Hne.
  split; [split; assumption|]. split.
  - intros H3. apply Hcl, Hsc, H3.
  - lia.
Qed.

Lemma bridge_machine_coherent_witness :
  Twc.evse_state (Twc.vitals (simulator (Linked connected))) = 0
  \/ Twc.evse_state (Twc.vitals (simulator (Linked connected))) = 2
  \/ Twc.evse_state (Twc.vitals (simulator (Linked connected))) = 3
  \/ Twc.evse_state (Twc.vitals (simulator (Linked connected))) = 4.
Proof.
  exact (proj2 (proj2 (bridge_machine_coherent (Linked connected)
                         connected_reachable))).
Defined.

(** X21: With one connection at a time, the vitals endpoint follows the
    link.  Without a linked charge point
    the simulator is in state 0 with the contactor open and no charge-start
    time, and [GET] is answered 503 with the offline body; with one, [GET] is
    answered 200 with the whole snapshot.  Any other method is answered 405
    without body. *)
Theorem vitals_endpoint_follows_link :
  forall b : Bridge,
    bridge_reachable b ->
    match b with
    | Unlinked t =>
        Twc.evse_state (Twc.vitals t) = 0
        /\ Twc.contactor_closed (Twc.vitals t) = false
        /\ Twc.charging_start_time t = None
        /\ Twc.handle_twc3_request "GET" t
           = Twc.Response.Build 503 Twc.cors_headers
               (Some
                  [("error", Twc.PyStr "OCPP client not connected");
                   ("state", Twc.PyStr "unknown");
                   ("status", Twc.PyStr "offline")])
    | Linked cp =>
        Twc.handle_twc3_request "GET" (twc cp)
        = Twc.Response.Build 200 Twc.cors_headers
            (Some (Twc.to_dict (Twc.vitals (twc cp))))
    end
    /\ forall method : string,
        method <> "GET" ->
        Twc.handle_twc3_request method (simulator b)
        = Twc.Response.Build 405 [] None.
Proof.
  intros b Hreach.
  destruct (bridge_always_coherent b Hreach)
    as (([Hcs Hsc] & _ & _) & _ & _ & Hlink).
  split.
  - destruct b as [t|cp]; cbn [simulator] in *.
    + destruct Hlink as (Hoc & Hs0 & Hcst).
      split; [exact Hs0|]. split; [|split; [exact Hcst|]].
      * destruct (Twc.contactor_closed (Twc.vitals t)) eqn:Hc; [|reflexivity].
        rewrite (Hcs eq_refl) in Hs0. discriminate.
      * unfold Twc.handle_twc3_request. rewrite Hoc. reflexivity.
    + destruct Hlink as (Hoc & _).
      unfold Twc.handle_twc3_request. rewrite Hoc. reflexivity.
  - intros method Hm. apply String.eqb_neq in Hm.
    unfold Twc.handle_twc3_request. rewrite Hm. reflexivity.
Qed.

Lemma vitals_endpoint_follows_link_witness :
  Twc.Response.status (Twc.handle_twc3_request "GET" (twc started)) = 200
  /\ Twc.Response.status
       (Twc.handle_twc3_request "GET" (twc (disconnect 9 started))) = 503.
Proof.
  split.
  - rewrite (proj1 (vitals_endpoint_follows_link (Linked started)
                      started_reachable)).
    reflexivity.
  - assert (Hr : bridge_reachable (Unlinked (twc (disconnect 9 started)))).
    { eapply bridge_next; [apply started_reachable | apply step_unlink]. }
    destruct (proj1 (vitals_endpoint_follows_link _ Hr)) as (_ & _ & _ & H).
    rewrite H. reflexivity.
Defined.

(** X22: While a transaction is active, the remembered session is the one of
    that transaction. *)
Theorem active_transaction_is_remembered :
  forall (cp : ChargePoint) (tid : Z),
    bridge_reachable (Linked cp) ->
    transaction_id cp = Some tid ->
    exists session : ChargingSession.t,
      last_session cp = Some session
      /\ ChargingSession.transaction_id session = tid.
Proof.
  intros cp tid Hreach Htid.
  destruct (bridge_always_coherent _ Hreach) as (_ & _ & _ & _ & Hledger & _).
  specialize (Hledger tid Htid).
  destruct (last_session cp) as [session|]; [|discriminate].
  exists session. split; [reflexivity|].
  cbn in Hledger. congruence.
Qed.

Lemma active_transaction_is_remembered_witness :
  exists session : ChargingSession.t,
    last_session started = Some session
    /\ ChargingSession.transaction_id session = 5.
Proof.
  exact (active_transaction_is_remembered started 5 started_reachable eq_refl).
Defined.

(** X23: No session energy is ever negative or NaN: neither the one shown in
    the snapshot nor the one of the remembered session. *)
Theorem session_energy_never_negative :
  forall b : Bridge,
    bridge_reachable b ->
    not_negative (Twc.session_energy_wh (Twc.vitals (simulator b))) = true
    /\ match b with
       | Unlinked _ => True
       | Linked cp =>
           forall e : float,
             remembered_energy cp = Some e -> not_negative e = true
       end.
Proof.
  intros b Hreach.
  destruct (bridge_always_coherent b Hreach) as (_ & _ & Hse & Hlink).
  split; [exact Hse|].
  destruct b as [t|cp]; [exact I|].
  destruct Hlink as (_ & _ & Hpos). exact Hpos.
Qed.

Lemma session_energy_never_negative_witness :
  not_negative (Twc.session_energy_wh (Twc.vitals (simulator (Linked started))))
  = true.
Proof.
  exact (proj1 (session_energy_never_negative (Linked started)
                  started_reachable)).
Defined.

End BridgeInvariants.
